(** * Ethical consumption agent: consent gate and ethical scoring engine

    A shallow embedding of

    - [hushh_mcp/operons/score_ethical_factors.py]   (module [Scoring]),
    - [hushh_mcp/operons/assess_ethical_values.py]   (module [Quiz]),
    - [hushh_mcp/agents/ethical_consumption_agent/index.py] (module [Agent]),

    preceded by the fragment of the Python runtime these files rely on
    (module [Py]): dynamically typed values, [str]/[repr], [str.lower],
    substring tests, [dict.get], [min] and [round].  The modules
    [ScoringSpec], [QuizSpec], [AgentSpec] and [ExtraSpec] hold the
    vocabulary of the statements; the properties follow them.

    Modelling conventions.

    - Python [float]s are modelled by exact rationals ([Q]).  Binary64
      rounding error, overflow, infinities and NaN are not represented.
      The bonus constants of the scoring engine (5.0, 0.5, 1.0, 1.5, 2.0)
      are dyadic, so four of the five component scores are computed without
      rounding error by Python as well.
    - Python [str] is modelled by [string] (a sequence of bytes) read as
      ASCII text: [lower] folds the letters A-Z only.
    - A [dict] is an association list in insertion order, which is the
      order in which Python iterates and prints it.
    - An exception is a value of [PyExn]; a call that may raise returns an
      [outcome].
    - [input] reads from a finite list of lines and raises [EOFError] at its
      end; [print] has no effect on any returned value and is left out.
    - The collaborators the agent imports ([validate_token],
      [encrypt_data], the vault key) and the builtins [int] and
      [json.dumps] are parameters of the agent. *)

From Stdlib Require Import ZArith QArith Qround Lqa Lia List String Ascii Bool.
From Stdlib Require Import DecimalString.
Import ListNotations.

Set Warnings "-register-all".
Open Scope string_scope.

(** ** Exceptions and fallible computations *)

Inductive PyExn : Type :=
| KeyError (key : string)
| PermissionError (msg : string)
| AttributeError (msg : string)
| TypeError (msg : string)
| EOFError
| OutOfModel.

(** [OutOfModel] is not a Python exception: it marks an input that does not
    have the shape given by the type hints of the source and the data model
    ([certifications] a list of [str], [origin] a [str], [supply_chain] a
    [dict], [transparency_score] an [int] or a [float], [tier_visibility] a
    list).  What Python does on such input (an exception in most cases) is
    not modelled. *)

Inductive outcome (A : Type) : Type :=
| Ok (a : A)
| Raise (e : PyExn).

Arguments Ok {A} a.
Arguments Raise {A} e.

Definition bind {A B : Type} (m : outcome A) (k : A -> outcome B) : outcome B :=
  match m with
  | Ok a => k a
  | Raise e => Raise e
  end.

Notation "x <- m ;; k" := (bind m (fun x => k))
  (at level 61, m at next level, right associativity).

Definition is_ok {A : Type} (m : outcome A) : bool :=
  match m with Ok _ => true | Raise _ => false end.

(** ** The Python runtime fragment *)

Module Py.

(** *** Values *)

(** A [float] carries its value and the text [repr] prints for it; the
    model does not compute the shortest round-tripping decimal, so every
    statement below holds for whatever text Python prints. *)
Inductive PyVal : Type :=
| PyNone
| PyBool (b : bool)
| PyInt (z : Z)
| PyFloat (q : Q) (text : string)
| PyStr (s : string)
| PyList (l : list PyVal)
| PyDict (d : list (string * PyVal)).

Definition dict : Type := list (string * PyVal).

(** [d.get(k)] *)
Fixpoint get {V : Type} (k : string) (d : list (string * V)) : option V :=
  match d with
  | [] => None
  | (k', v) :: t => if String.eqb k' k then Some v else get k t
  end.

(** [d.get(k, default)] *)
Definition get_default {V : Type} (k : string) (default : V)
    (d : list (string * V)) : V :=
  match get k d with
  | Some v => v
  | None => default
  end.

(** [d[k] = v]: the value of an existing key is replaced in place, a new key
    goes to the end. *)
Fixpoint dict_set {V : Type} (k : string) (v : V) (d : list (string * V))
    : list (string * V) :=
  match d with
  | [] => [(k, v)]
  | (k', v') :: t =>
      if String.eqb k' k then (k, v) :: t else (k', v') :: dict_set k v t
  end.

Definition keys {V : Type} (d : list (string * V)) : list string :=
  map fst d.

(** Truth value of an object, as tested by [if x:]. *)
Definition truthy (v : PyVal) : bool :=
  match v with
  | PyNone => false
  | PyBool b => b
  | PyInt z => negb (Z.eqb z 0)
  | PyFloat q _ => negb (Qeq_bool q 0)
  | PyStr s => negb (String.eqb s "")
  | PyList l => match l with [] => false | _ => true end
  | PyDict d => match d with [] => false | _ => true end
  end.

(** *** Strings *)

Definition lower_ascii (c : ascii) : ascii :=
  let n := nat_of_ascii c in
  if (andb (65 <=? n) (n <=? 90))%nat then ascii_of_nat (n + 32) else c.

(** [s.lower()] *)
Fixpoint lower (s : string) : string :=
  match s with
  | EmptyString => EmptyString
  | String c t => String (lower_ascii c) (lower t)
  end.

(** [needle in hay] for two [str]. *)
Fixpoint contains (needle hay : string) : bool :=
  if String.prefix needle hay then true
  else match hay with
       | EmptyString => false
       | String _ t => contains needle t
       end.

(** [x in xs] for a [str] and a list of [str]. *)
Definition mem (x : string) (xs : list string) : bool :=
  existsb (String.eqb x) xs.

(** [c in s] for a character. *)
Fixpoint has_char (c : ascii) (s : string) : bool :=
  match s with
  | EmptyString => false
  | String c' t => if Ascii.eqb c' c then true else has_char c t
  end.

(** [s.replace('_', ' ')] *)
Fixpoint replace_underscore (s : string) : string :=
  match s with
  | EmptyString => EmptyString
  | String c t =>
      String (if Ascii.eqb c "_"%char then " "%char else c) (replace_underscore t)
  end.

(** [sep.join(xs)] *)
Fixpoint join (sep : string) (xs : list string) : string :=
  match xs with
  | [] => ""
  | [x] => x
  | x :: t => x ++ sep ++ join sep t
  end.

(** *** [repr] and [str] *)

Definition squote : ascii := "'"%char.
Definition dquote : ascii := "034"%char.
Definition backslash : ascii := "\"%char.

Definition hex_digit (n : nat) : ascii :=
  if (n <? 10)%nat then ascii_of_nat (48 + n) else ascii_of_nat (87 + n).

(** One character of a [str] inside its [repr], [q] being the quote used. *)
Definition escape_char (q c : ascii) : string :=
  let n := nat_of_ascii c in
  if Ascii.eqb c backslash then String backslash (String backslash "")
  else if Ascii.eqb c q then String backslash (String q "")
  else if (n =? 10)%nat then String backslash "n"
  else if (n =? 13)%nat then String backslash "r"
  else if (n =? 9)%nat then String backslash "t"
  else if orb (n <? 32)%nat (n =? 127)%nat then
    String backslash (String "x"%char
      (String (hex_digit (n / 16)) (String (hex_digit (n mod 16)) "")))
  else String c "".

Fixpoint escape (q : ascii) (s : string) : string :=
  match s with
  | EmptyString => EmptyString
  | String c t => escape_char q c ++ escape q t
  end.

(** [repr(s)] for a [str]: single quotes, unless the text holds a single
    quote and no double quote. *)
Definition repr_str (s : string) : string :=
  let q := if andb (has_char squote s) (negb (has_char dquote s))
           then dquote else squote in
  String q (escape q s ++ String q "").

Definition repr_int (z : Z) : string :=
  NilZero.string_of_int (Z.to_int z).

Fixpoint repr (v : PyVal) : string :=
  match v with
  | PyNone => "None"
  | PyBool true => "True"
  | PyBool false => "False"
  | PyInt z => repr_int z
  | PyFloat _ text => text
  | PyStr s => repr_str s
  | PyList l => "[" ++ join ", " (map repr l) ++ "]"
  | PyDict d =>
      "{" ++ join ", "
               (map (fun kv => match kv with
                               | (k, x) => repr_str k ++ ": " ++ repr x
                               end) d)
          ++ "}"
  end.

Definition repr_item (kv : string * PyVal) : string :=
  repr_str (fst kv) ++ ": " ++ repr (snd kv).

(** [str(v)]: a [str] is itself, every other value prints as its [repr]. *)
Definition str (v : PyVal) : string :=
  match v with
  | PyStr s => s
  | _ => repr v
  end.

(** *** Numbers *)

(** [min(a, b)]: the first argument unless the second is strictly smaller. *)
Definition min (a b : Q) : Q :=
  if Qlt_le_dec b a then b else a.

(** [round(x, 1)]: to one decimal, ties to the even neighbour. *)
Definition round1 (x : Q) : Q :=
  let n := x * 10 in
  let f := Qfloor n in
  match (2 * (n - inject_Z f)) ?= 1 with
  | Lt => f # 10
  | Gt => (f + 1) # 10
  | Eq => (if Z.even f then f else (f + 1)%Z) # 10
  end.

(** [sum(xs)] *)
Definition sum (xs : list Q) : Q :=
  fold_left Qplus xs 0.

End Py.

(** ** The scoring engine: [operons/score_ethical_factors.py] *)

Module Scoring.
Import Py.

Open Scope Q_scope.

Record ScoreResult : Type := {
  overall_score : Q;
  component_scores : list (string * Q);
  strengths : list string;
  concerns : list string;
  certifications_found : list string;
  user_alignment : string;
  scoring_methodology : string
}.

Definition default_weights : list (string * Q) :=
  [ ("environmental", 0.25);
    ("labor", 0.25);
    ("supply_chain", 0.20);
    ("transparency", 0.15);
    ("certifications", 0.15) ].

(** *** Reading the product attributes at their declared types *)

Definition as_str (v : PyVal) : outcome string :=
  match v with
  | PyStr s => Ok s
  | _ => Raise OutOfModel
  end.

Fixpoint as_str_items (l : list PyVal) : outcome (list string) :=
  match l with
  | [] => Ok []
  | x :: t => s <- as_str x ;; r <- as_str_items t ;; Ok (s :: r)
  end.

Definition as_str_list (v : PyVal) : outcome (list string) :=
  match v with
  | PyList l => as_str_items l
  | _ => Raise OutOfModel
  end.

Definition as_dict (v : PyVal) : outcome dict :=
  match v with
  | PyDict d => Ok d
  | _ => Raise OutOfModel
  end.

Definition as_number (v : PyVal) : outcome Q :=
  match v with
  | PyInt z => Ok (inject_Z z)
  | PyFloat q _ => Ok q
  | _ => Raise OutOfModel
  end.

(** [len(v)] of a list. *)
Definition list_len (v : PyVal) : outcome nat :=
  match v with
  | PyList l => Ok (List.length l)
  | _ => Raise OutOfModel
  end.

(** [scores[factor]] *)
Definition subscript (d : list (string * Q)) (k : string) : outcome Q :=
  match get k d with
  | Some x => Ok x
  | None => Raise (KeyError k)
  end.

(** *** The five component scores (lines 38-92) *)

Record Components : Type := {
  environmental : Q;
  labor : Q;
  supply_chain : Q;
  transparency : Q;
  certifications : Q
}.

Definition bonus (cond : bool) (amount : Q) (score : Q) : Q :=
  if cond then score + amount else score.

Definition env_score (certs : list string) (environmental_impact : PyVal)
    (product_data : dict) : Q :=
  let s := 5.0 in
  let s := bonus (mem "organic" (map lower certs)) 1.5 s in
  let s := bonus (contains "carbon neutral" (lower (str environmental_impact))) 1.0 s in
  let s := bonus (contains "renewable energy" (lower (str environmental_impact))) 1.0 s in
  let s := bonus (contains "recyclable" (lower (str (PyDict product_data)))) 0.5 s in
  min s 10.0.

Definition labor_score (certs : list string) (labor_practices : PyVal) : Q :=
  let s := 5.0 in
  let s := bonus (mem "fair trade" (map lower certs)) 2.0 s in
  let s := bonus (contains "living wage" (lower (str labor_practices))) 1.5 s in
  let s := bonus (contains "worker rights" (lower (str labor_practices))) 1.0 s in
  let s := bonus (mem "sa8000" (map lower certs)) 1.0 s in
  min s 10.0.

Definition supply_score (transparency_level : Q) (origin : string)
    (tier_visibility : nat) : Q :=
  let s := transparency_level in
  let s := bonus (orb (contains "local" (lower origin))
                      (contains "domestic" (lower origin))) 1.5 s in
  let s := bonus (2 <? tier_visibility)%nat 1.0 s in
  min s 10.0.

Definition trans_score (certs : list string) (public_reporting : PyVal) : Q :=
  let s := 5.0 in
  let s := bonus (truthy public_reporting) 1.5 s in
  let s := bonus (mem "b-corp" (map lower certs)) 2.0 s in
  let s := bonus (2 <? List.length certs)%nat 1.0 s in
  min s 10.0.

Definition cert_score (certs : list string) : Q :=
  min (inject_Z (Z.of_nat (List.length certs)) * 1.5) 10.0.

Definition compute_components (certs : list string) (product_data : dict)
    : outcome Components :=
  origin <- as_str (get_default "origin" (PyStr "unknown") product_data) ;;
  let labor_practices := get_default "labor_practices" (PyDict []) product_data in
  let environmental_impact :=
    get_default "environmental_impact" (PyDict []) product_data in
  supply_chain_info <-
    as_dict (get_default "supply_chain" (PyDict []) product_data) ;;
  transparency_level <-
    as_number (get_default "transparency_score" (PyInt 5) supply_chain_info) ;;
  tiers <- list_len (get_default "tier_visibility" (PyList []) supply_chain_info) ;;
  Ok {| environmental := env_score certs environmental_impact product_data;
        labor := labor_score certs labor_practices;
        supply_chain := supply_score transparency_level origin tiers;
        transparency :=
          trans_score certs
            (get_default "public_reporting" (PyBool false) supply_chain_info);
        certifications := cert_score certs |}.

(** The [scores] dict, in the order its keys are inserted. *)
Definition scores_dict (c : Components) : list (string * Q) :=
  [ ("environmental", environmental c);
    ("labor", labor c);
    ("supply_chain", supply_chain c);
    ("transparency", transparency c);
    ("certifications", certifications c) ].

(** *** Weighted overall score (line 95) *)

Fixpoint weighted_terms (scores weights : list (string * Q))
    (factors : list string) : outcome (list Q) :=
  match factors with
  | [] => Ok []
  | factor :: rest =>
      s <- subscript scores factor ;;
      w <- subscript weights factor ;;
      r <- weighted_terms scores weights rest ;;
      Ok (s * w :: r)
  end.

Definition weighted_overall (scores weights : list (string * Q)) : outcome Q :=
  terms <- weighted_terms scores weights (keys weights) ;;
  Ok (sum terms).

(** *** User preference weighting (lines 97-106) *)

Definition importance (key : string) (user_values : list (string * Z)) : Z :=
  get_default key 3%Z user_values.

Definition user_weight_multiplier (c : Components)
    (user_values : list (string * Z)) : Q :=
  let m := 1.0 in
  let m := if (4 <=? importance "environmental_importance" user_values)%Z
           then m + 0.1 * (environmental c / 10) else m in
  let m := if (4 <=? importance "labor_practices_importance" user_values)%Z
           then m + 0.1 * (labor c / 10) else m in
  let m := if (4 <=? importance "transparency_importance" user_values)%Z
           then m + 0.1 * (transparency c / 10) else m in
  m.

(** *** Explanation (lines 108-116) *)

Definition is_strength (kv : string * Q) : bool := Qle_bool 7.5 (snd kv).

Definition is_concern (kv : string * Q) : bool :=
  andb (negb (Qle_bool 7.5 (snd kv))) (Qle_bool (snd kv) 4.0).

Definition strength_text (kv : string * Q) : string :=
  "Strong " ++ replace_underscore (fst kv) ++ " practices".

Definition concern_text (kv : string * Q) : string :=
  "Limited " ++ replace_underscore (fst kv) ++ " information".

(** *** The returned dict (lines 97-126) *)

Definition assemble (certs : list string) (c : Components) (overall : Q)
    (user_values : list (string * Z)) : ScoreResult :=
  let scores := scores_dict c in
  let multiplier := user_weight_multiplier c user_values in
  let final_score := min (overall * multiplier) 10.0 in
  {| overall_score := round1 final_score;
     component_scores := map (fun kv => (fst kv, round1 (snd kv))) scores;
     strengths := map strength_text (filter is_strength scores);
     concerns := map concern_text (filter is_concern scores);
     certifications_found := certs;
     user_alignment := if Qlt_le_dec 1.05 multiplier then "high" else "moderate";
     scoring_methodology := "weighted_multi_factor" |}.

(** *** The operon *)

Definition weights_or_default (weights : option (list (string * Q)))
    : list (string * Q) :=
  match weights with
  | None => default_weights
  | Some w => w
  end.

Definition score_ethical_factors (product_data : dict)
    (user_values : list (string * Z)) (weights : option (list (string * Q)))
    : outcome ScoreResult :=
  let weights := weights_or_default weights in
  certs <- as_str_list (get_default "certifications" (PyList []) product_data) ;;
  c <- compute_components certs product_data ;;
  overall <- weighted_overall (scores_dict c) weights ;;
  Ok (assemble certs c overall user_values).

End Scoring.


(** ** The values quiz: [operons/assess_ethical_values.py] *)

Module Quiz.
Import Py.

Definition questions : list (string * string) :=
  [ ("Environmental sustainability (climate impact, waste reduction)",
     "environmental_importance");
    ("Fair labor practices (worker rights, fair wages)",
     "labor_practices_importance");
    ("Local sourcing vs global supply chains", "local_sourcing_preference");
    ("Animal welfare considerations", "animal_welfare_importance");
    ("Supply chain transparency", "transparency_importance") ].

(** [s.split(sep)[0]]: the text before the first occurrence of [sep]. *)
Fixpoint before (sep s : string) : string :=
  if String.prefix sep s then ""
  else match s with
       | EmptyString => EmptyString
       | String c t => String c (before sep t)
       end.

Record Assessment : Type := {
  values : list (string * Z);
  summary : string;
  total_score : Z;
  assessment_type : string
}.

Section Interactive.

(** [int(response)]; [None] stands for [ValueError].  The builtin is left
    abstract: the quiz is specified for every parser. *)
Variable int_of_str : string -> option Z.

(** The [while True] loop of one question (lines 31-41; the same loop is at
    [index.py] lines 69-79).  [stdin] holds the lines [input] will return;
    reading past its end raises [EOFError].  The loop returns the accepted
    score and the lines left unread. *)
Fixpoint ask (stdin : list string) : outcome (Z * list string) :=
  match stdin with
  | [] => Raise EOFError
  | response :: rest =>
      match int_of_str response with
      | Some score =>
          if andb (1 <=? score)%Z (score <=? 5)%Z then Ok (score, rest)
          else ask rest
      | None => ask rest
      end
  end.

(** The [for question, key in questions] loop around it. *)
Fixpoint ask_all (qs : list (string * string)) (values : list (string * Z))
    (stdin : list string) : outcome (list (string * Z) * list string) :=
  match qs with
  | [] => Ok (values, stdin)
  | (_, key) :: rest =>
      r <- ask stdin ;;
      ask_all rest (dict_set key (fst r) values) (snd r)
  end.

Fixpoint default_all (qs : list (string * string)) (values : list (string * Z))
    : list (string * Z) :=
  match qs with
  | [] => values
  | (_, key) :: rest => default_all rest (dict_set key 3%Z values)
  end.

(** [values[key]] *)
Definition subscript (d : list (string * Z)) (k : string) : outcome Z :=
  match get k d with
  | Some x => Ok x
  | None => Raise (KeyError k)
  end.

Fixpoint priorities (qs : list (string * string)) (values : list (string * Z))
    : outcome (list string) :=
  match qs with
  | [] => Ok []
  | (question, key) :: rest =>
      v <- subscript values key ;;
      r <- priorities rest values ;;
      Ok (if (4 <=? v)%Z then lower (before " (" question) :: r else r)
  end.

Definition assess_ethical_values (interactive : bool) (stdin : list string)
    : outcome (Assessment * list string) :=
  r <- (if interactive then ask_all questions [] stdin
        else Ok (default_all questions [], stdin)) ;;
  let values := fst r in
  ps <- priorities questions values ;;
  Ok ({| values := values;
         summary := match ps with
                    | [] => "Balanced approach"
                    | _ => "Top priorities: " ++ join ", " ps
                    end;
         total_score := fold_left Z.add (map snd values) 0%Z;
         assessment_type := if interactive then "interactive" else "default" |},
      snd r).

End Interactive.

End Quiz.

(** ** The agent: [agents/ethical_consumption_agent/index.py] *)

Module Agent.
Import Py.

(** The members of [hushh_mcp.constants.ConsentScope] the agent names. *)
Inductive ConsentScope : Type :=
| CUSTOM_ETHICAL_VALUES
| VAULT_READ_EMAIL
| VAULT_READ_FINANCE
| AGENT_SHOPPING_PURCHASE
| CUSTOM_SUPPLY_CHAIN.

(** The decoded token returned by [validate_token]. *)
Record HushhConsentToken : Type := {
  token : string;
  user_id : string;
  scope : ConsentScope
}.

Record EthicalValues : Type := {
  environmental_importance : Z;
  labor_practices_importance : Z;
  local_sourcing_preference : Z;
  animal_welfare_importance : Z;
  transparency_importance : Z
}.

(** [self.required_scopes] *)
Definition required_scopes : list (string * ConsentScope) :=
  [ ("values_access", CUSTOM_ETHICAL_VALUES);
    ("email_access", VAULT_READ_EMAIL);
    ("finance_access", VAULT_READ_FINANCE);
    ("shopping_access", AGENT_SHOPPING_PURCHASE);
    ("supply_chain", CUSTOM_SUPPLY_CHAIN) ].

Definition required_scope (k : string) : outcome ConsentScope :=
  match get k required_scopes with
  | Some s => Ok s
  | None => Raise (KeyError k)
  end.

(** [_generate_values_summary] *)
Definition generate_values_summary (v : EthicalValues) : string :=
  let add (cond : bool) (text : string) (ps : list string) :=
    if cond then (ps ++ [text])%list else ps in
  let ps := [] in
  let ps := add (4 <=? environmental_importance v)%Z
                "environmental sustainability" ps in
  let ps := add (4 <=? labor_practices_importance v)%Z
                "fair labor practices" ps in
  let ps := add (4 <=? local_sourcing_preference v)%Z "local sourcing" ps in
  let ps := add (4 <=? animal_welfare_importance v)%Z "animal welfare" ps in
  let ps := add (4 <=? transparency_importance v)%Z
                "supply chain transparency" ps in
  match ps with
  | [] => "Balanced approach across all ethical factors"
  | _ => "Your top priorities: " ++ join ", " ps
  end.

Definition float (q : Q) (text : string) : PyVal := PyFloat q text.

Definition strs (l : list string) : PyVal := PyList (map PyStr l).

Definition mock_analysis : PyVal :=
  PyDict
    [ ("total_purchases", PyInt 47);
      ("ethical_score", float 6.2 "6.2");
      ("eco_score", float 7.1 "7.1");
      ("improvement_vs_last_period",
       PyDict [("ethical", float 0.8 "0.8"); ("eco", float 1.2 "1.2")]);
      ("top_issues",
       strs [ "23% of purchases from companies with poor labor practices";
              "67% of electronics from non-certified suppliers";
              "Opportunity: 15 local alternatives available for frequent purchases" ]);
      ("recommendations",
       strs [ "Consider B-Corp certified alternatives for your next electronics purchase";
              "Look for Fair Trade certified options in your regular grocery shopping";
              "Explore local farmers markets for produce and packaged goods" ]) ].

Definition mock_results (query : string) (budget : PyVal) : PyVal :=
  PyDict
    [ ("query", PyStr query);
      ("total_options_analyzed", PyInt 47);
      ("budget", budget);
      ("recommendations",
       PyList
         [ PyDict
             [ ("name", PyStr "Fairphone Headphones");
               ("price", PyInt 180);
               ("ethical_score", float 9.2 "9.2");
               ("eco_score", float 8.8 "8.8");
               ("certifications", strs ["Fair Trade"; "Recyclable Materials"]);
               ("strengths",
                strs [ "Transparent supply chain"; "Worker-owned factories";
                       "Biodegradable packaging" ]);
               ("source", PyStr "fairphone.com") ];
           PyDict
             [ ("name", PyStr "Patagonia Audio Gear");
               ("price", PyInt 195);
               ("ethical_score", float 8.7 "8.7");
               ("eco_score", float 9.1 "9.1");
               ("certifications", strs ["B-Corp"; "1% for the Planet"]);
               ("strengths",
                strs [ "Carbon neutral shipping"; "Repair program";
                       "Recycled materials" ]);
               ("source", PyStr "patagonia.com") ] ]);
      ("mainstream_comparison",
       PyDict
         [ ("name", PyStr "Sony XM4");
           ("price", PyInt 199);
           ("ethical_score", float 4.1 "4.1");
           ("eco_score", float 3.8 "3.8");
           ("issues",
            strs [ "Supply chain concerns in 3rd party factories";
                   "Limited transparency"; "Non-renewable materials" ]) ]) ].

Definition mock_trace (product_url : string) : PyVal :=
  PyDict
    [ ("product_url", PyStr product_url);
      ("supply_chain",
       PyDict
         [ ("manufacturer", PyStr "TechCorp Manufacturing Ltd");
           ("manufacturing_location", PyStr "Shenzhen, China");
           ("raw_materials_origin",
            strs [ "Democratic Republic of Congo (cobalt)"; "Chile (lithium)";
                   "Indonesia (nickel)" ]);
           ("labor_certifications", strs ["SA8000"; "WRAP"]);
           ("environmental_certifications", strs ["ISO14001"]);
           ("transparency_score", float 6.5 "6.5") ]);
      ("ethical_concerns",
       strs [ "Cobalt sourcing from conflict regions";
              "Limited visibility into Tier 2/3 suppliers";
              "No living wage certification for factory workers" ]);
      ("positive_factors",
       strs [ "Third-party labor audits conducted annually";
              "Waste reduction program in manufacturing";
              "Supplier code of conduct published" ]);
      ("overall_supply_chain_score", float 5.8 "5.8") ].

Definition mock_report (user_id : string) : PyVal :=
  PyDict
    [ ("user_id", PyStr user_id);
      ("report_date", PyStr "2024-01-15");
      ("ethical_score_trend",
       PyList [float 5.4 "5.4"; float 5.8 "5.8"; float 6.0 "6.0"; float 6.2 "6.2"]);
      ("eco_score_trend",
       PyList [float 5.9 "5.9"; float 6.4 "6.4"; float 6.8 "6.8"; float 7.1 "7.1"]);
      ("top_achievements",
       strs [ "Increased purchases from B-Corp certified companies by 35%";
              "Reduced carbon footprint from shopping by 18%";
              "Supported 12 local businesses this quarter" ]);
      ("areas_for_improvement",
       strs [ "Electronics sourcing - consider refurbished options";
              "Fast fashion purchases - explore sustainable brands";
              "Food packaging - look for zero-waste alternatives" ]);
      ("personalized_recommendations",
       strs [ "Based on your environmental priority, consider Patagonia for outdoor gear";
              "For electronics, Fairphone aligns with your transparency values";
              "Local farmers market on Saturdays matches your local sourcing preference" ]) ].

Section Collaborators.

(** The collaborators imported at lines 6-10, which the agent only calls. *)
Variable EncryptedPayload : Type.
Variable validate_token :
  string -> ConsentScope -> bool * string * option HushhConsentToken.
Variable encrypt_data : string -> string -> EncryptedPayload.
Variable VAULT_ENCRYPTION_KEY : string.
Variable json_dumps : PyVal -> string.
Variable int_of_str : string -> option Z.

(** A value of a returned dict: plain data or a sealed payload. *)
Inductive Field : Type :=
| Val (v : PyVal)
| Sealed (p : EncryptedPayload).

Definition Response : Type := list (string * Field).

(** The two checks every entry point opens with, written out at lines
    48-54, 101-107, 148-154 and 205-211. *)
Definition check_consent (user : string) (token_str : string)
    (scope_key : string) : outcome unit :=
  expected <- required_scope scope_key ;;
  match validate_token token_str expected with
  | (valid, reason, tok) =>
      if negb valid then
        Raise (PermissionError ("Consent validation failed: " ++ reason))
      else
        match tok with
        | None =>
            Raise (AttributeError
                     "'NoneType' object has no attribute 'user_id'")
        | Some t =>
            if negb (String.eqb (user_id t) user) then
              Raise (PermissionError
                       "Token user ID does not match provided user")
            else Ok tt
        end
  end.

(** The [EthicalValues] dataclass built from [values] as keyword arguments
    (line 81). *)
Definition ethical_values_of (values : list (string * Z)) : outcome EthicalValues :=
  match get "environmental_importance" values,
        get "labor_practices_importance" values,
        get "local_sourcing_preference" values,
        get "animal_welfare_importance" values,
        get "transparency_importance" values with
  | Some e, Some l, Some s, Some a, Some t =>
      Ok {| environmental_importance := e;
            labor_practices_importance := l;
            local_sourcing_preference := s;
            animal_welfare_importance := a;
            transparency_importance := t |}
  | _, _, _, _, _ => Raise (TypeError "missing required argument")
  end.

Definition values_dict (values : list (string * Z)) : PyVal :=
  PyDict (map (fun kv => (fst kv, PyInt (snd kv))) values).

Definition assess_ethical_values (user : string) (token_str : string)
    (stdin : list string) : outcome (Response * list string) :=
  _ <- check_consent user token_str "values_access" ;;
  r <- Quiz.ask_all int_of_str Quiz.questions [] stdin ;;
  let values := fst r in
  ethical_values <- ethical_values_of values ;;
  let encrypted_values :=
    encrypt_data (json_dumps (values_dict values)) VAULT_ENCRYPTION_KEY in
  Ok ([ ("status", Val (PyStr "success"));
        ("message", Val (PyStr "Ethical values assessment completed"));
        ("encrypted_data", Sealed encrypted_values);
        ("summary", Val (PyStr (generate_values_summary ethical_values))) ],
      snd r).

Definition analyze_purchase_history (user : string) (token_str : string)
    (period : string) : outcome Response :=
  _ <- check_consent user token_str "email_access" ;;
  let encrypted_analysis :=
    encrypt_data (json_dumps mock_analysis) VAULT_ENCRYPTION_KEY in
  Ok [ ("status", Val (PyStr "success"));
       ("analysis", Val mock_analysis);
       ("encrypted_data", Sealed encrypted_analysis);
       ("period", Val (PyStr period)) ].

Definition search_ethical_products (user : string) (token_str : string)
    (query : string) (budget : PyVal) : outcome Response :=
  _ <- check_consent user token_str "shopping_access" ;;
  Ok [ ("status", Val (PyStr "success"));
       ("results", Val (mock_results query budget));
       ("timestamp", Val (PyStr "2024-01-15T10:30:00Z")) ].

Definition trace_supply_chain (user : string) (token_str : string)
    (product_url : string) : outcome Response :=
  _ <- check_consent user token_str "supply_chain" ;;
  let encrypted_trace :=
    encrypt_data (json_dumps (mock_trace product_url)) VAULT_ENCRYPTION_KEY in
  Ok [ ("status", Val (PyStr "success"));
       ("supply_chain_analysis", Val (mock_trace product_url));
       ("encrypted_data", Sealed encrypted_trace) ].

(** Lines 250-288: the token is validated, its [user_id] is not read. *)
Definition generate_report (user : string) (token_str : string)
    : outcome Response :=
  expected <- required_scope "email_access" ;;
  match validate_token token_str expected with
  | (valid, reason, _) =>
      if negb valid then
        Raise (PermissionError ("Consent validation failed: " ++ reason))
      else
        Ok [ ("status", Val (PyStr "success"));
             ("report", Val (mock_report user)) ]
  end.

End Collaborators.

Arguments Val {EncryptedPayload} v.
Arguments Sealed {EncryptedPayload} p.

End Agent.

(** ** Vocabulary of the statements about the scoring engine *)

Module ScoringSpec.
Import Py Scoring.

Open Scope Q_scope.

Definition factor_names : list string :=
  ["environmental"; "labor"; "supply_chain"; "transparency"; "certifications"].

(** [x] is a reported component score of [r] under the name [k]. *)
Definition component (r : ScoreResult) (k : string) (x : Q) : Prop :=
  In (k, x) (component_scores r).



(** The [transparency_score] read at line 69, where the product gives one,
    is not negative. *)
Definition transparency_nonneg (product_data : dict) : Prop :=
  forall sc v t,
    get "supply_chain" product_data = Some (PyDict sc) ->
    get "transparency_score" sc = Some v ->
    as_number v = Ok t ->
    0 <= t.

(** No weight in use is negative. *)
Definition weights_nonneg (weights : option (list (string * Q))) : Prop :=
  Forall (fun kv => 0 <= snd kv) (weights_or_default weights).




(** The score the engine files under a factor name. *)
Definition score_at (c : Components) (factor : string) : Q :=
  get_default factor 0 (scores_dict c).

(** The weight a factor carries in the overall score: its entry in the
    weights mapping, nothing when it has none. *)
Definition weight_of (weights : list (string * Q)) (factor : string) : Q :=
  get_default factor 0 weights.

Definition spec_weighted_sum (c : Components) (weights : list (string * Q)) : Q :=
  environmental c * weight_of weights "environmental"
  + labor c * weight_of weights "labor"
  + supply_chain c * weight_of weights "supply_chain"
  + transparency c * weight_of weights "transparency"
  + certifications c * weight_of weights "certifications".

(** The product with one more certification at the end of its list. *)
Definition add_certification (c : string) (product_data : dict) : dict :=
  match get_default "certifications" (PyList []) product_data with
  | PyList l =>
      dict_set "certifications" (PyList (l ++ [PyStr c])) product_data
  | _ => product_data
  end.

(** The product with [public_reporting] set in its supply-chain descriptor. *)
Definition set_public_reporting (product_data : dict) : dict :=
  match get_default "supply_chain" (PyDict []) product_data with
  | PyDict sc =>
      dict_set "supply_chain"
        (PyDict (dict_set "public_reporting" (PyBool true) sc)) product_data
  | _ => product_data
  end.




(** All three importances the engine reads are at least 4. *)
Definition cares_about_all (user_values : list (string * Z)) : Prop :=
  (4 <= importance "environmental_importance" user_values)%Z /\
  (4 <= importance "labor_practices_importance" user_values)%Z /\
  (4 <= importance "transparency_importance" user_values)%Z.

(** Scenario A: the attributes the scenario fixes; every other attribute of
    the product is left free. *)
Definition scenario_a (product_data : dict) : Prop :=
  get "certifications" product_data
    = Some (PyList [PyStr "Fair Trade"; PyStr "B-Corp"; PyStr "Organic"]) /\
  get "origin" product_data = Some (PyStr "Local, USA") /\
  exists sc t1 t2 t3,
    get "supply_chain" product_data = Some (PyDict sc) /\
    get "transparency_score" sc = Some (PyInt 8) /\
    get "public_reporting" sc = Some (PyBool true) /\
    get "tier_visibility" sc = Some (PyList [t1; t2; t3]).

(** Scenario B: no certifications, origin "Unknown" and a supply-chain
    descriptor with the transparency score 2 that reports nothing more (no
    public reporting, at most two visible tiers); every other attribute of
    the product is left free. *)
Definition scenario_b (product_data : dict) : Prop :=
  get_default "certifications" (PyList []) product_data = PyList [] /\
  get "origin" product_data = Some (PyStr "Unknown") /\
  exists sc tiers,
    get "supply_chain" product_data = Some (PyDict sc) /\
    get "transparency_score" sc = Some (PyInt 2) /\
    truthy (get_default "public_reporting" (PyBool false) sc) = false /\
    get_default "tier_visibility" (PyList []) sc = PyList tiers /\
    (List.length tiers <= 2)%nat.

(** The text of a joined list before and after one of its elements. *)
Definition join_pre (sep : string) (xs : list string) : string :=
  fold_right (fun x acc => x ++ sep ++ acc) "" xs.

Definition join_post (sep : string) (xs : list string) : string :=
  fold_right (fun x acc => sep ++ x ++ acc) "" xs.

(** The products of the two tests in [tests/test_ethical_agent.py]. *)
Definition test_product_a : dict :=
  [ ("certifications", PyList [PyStr "Fair Trade"; PyStr "B-Corp"; PyStr "Organic"]);
    ("origin", PyStr "Local, USA");
    ("labor_practices",
     PyDict [("living_wage", PyBool true); ("worker_rights", PyBool true)]);
    ("environmental_impact",
     PyDict [("carbon_neutral", PyBool true); ("renewable_energy", PyBool true)]);
    ("supply_chain",
     PyDict [ ("transparency_score", PyInt 8);
              ("public_reporting", PyBool true);
              ("tier_visibility",
               PyList [PyStr "tier1"; PyStr "tier2"; PyStr "tier3"]) ]) ].

Definition test_values_a : list (string * Z) :=
  [ ("environmental_importance", 5%Z);
    ("labor_practices_importance", 4%Z);
    ("transparency_importance", 5%Z) ].

Definition test_product_b : dict :=
  [ ("certifications", PyList []);
    ("origin", PyStr "Unknown");
    ("labor_practices", PyDict []);
    ("environmental_impact", PyDict []);
    ("supply_chain", PyDict [("transparency_score", PyInt 2)]) ].

Definition test_values_b : list (string * Z) :=
  [ ("environmental_importance", 5%Z);
    ("labor_practices_importance", 5%Z);
    ("transparency_importance", 5%Z) ].

(** No certifications, origin "Unknown" and transparency score 2 again, with
    further positive signals in the attributes scenario B does not mention. *)
Definition flagged_product_b : dict :=
  [ ("certifications", PyList []);
    ("origin", PyStr "Unknown");
    ("labor_practices", PyStr "living wage, worker rights");
    ("environmental_impact",
     PyStr "carbon neutral, renewable energy, recyclable");
    ("supply_chain",
     PyDict [ ("transparency_score", PyInt 2);
              ("public_reporting", PyBool true);
              ("tier_visibility",
               PyList [PyStr "tier1"; PyStr "tier2"; PyStr "tier3"]) ]) ].

(** Weights naming a factor the engine does not compute. *)
Definition unknown_weights : list (string * Q) :=
  [("environmental", 0.5); ("price", 0.5)].

(** Weights that leave three of the five factors out. *)
Definition partial_weights : list (string * Q) :=
  [("labor", 0.5); ("environmental", 0.5)].

(** A product whose name mentions recycling, with two certifications and no
    public reporting. *)
Definition plain_product : dict :=
  [ ("name", PyStr "Recyclable bottle");
    ("certifications", PyList [PyStr "Fair Trade"; PyStr "SA8000"]);
    ("supply_chain",
     PyDict [("transparency_score", PyFloat 6.5 "6.5");
             ("public_reporting", PyBool false)]) ].

(** A product whose only mention of "recyclable" is the text it holds where
    the data model has the [bool] [public_reporting]. *)
Definition text_flag_product : dict :=
  [ ("supply_chain", PyDict [("public_reporting", PyStr "recyclable")]) ].


End ScoringSpec.

(** ** Vocabulary of the statements about the quiz and the agent *)

Module QuizSpec.
Import Py.

Definition in_scale (z : Z) : Prop := (1 <= z <= 5)%Z.

Section Responses.

Variable int_of_str : string -> option Z.

(** The score a response is accepted with: it parses and lies between 1
    and 5.  Every other response is answered by a new prompt. *)
Definition accepted (response : string) : option Z :=
  match int_of_str response with
  | Some score => if andb (1 <=? score)%Z (score <=? 5)%Z then Some score else None
  | None => None
  end.

Fixpoint accepted_scores (stdin : list string) : list Z :=
  match stdin with
  | [] => []
  | response :: rest =>
      match accepted response with
      | Some score => score :: accepted_scores rest
      | None => accepted_scores rest
      end
  end.

End Responses.

(** A parser for plain decimal numerals, for the examples. *)
Definition decimal (s : string) : option Z :=
  option_map Z.of_int (NilEmpty.int_of_string s).

(** One run of the quiz: two of the eight answers are off the scale and one
    is not a number. *)
Definition example_answers : list string :=
  ["4"; "7"; "5"; "many"; "3"; "0"; "2"; "4"].

End QuizSpec.

Module AgentSpec.
Import Py Agent.

(** A validation collaborator that accepts every token and decodes it to the
    subject [uid]. *)
Definition accept_as (uid : string) (token_str : string) (expected : ConsentScope)
    : bool * string * option HushhConsentToken :=
  (true, "", Some {| token := token_str; user_id := uid; scope := expected |}).

(** A validation collaborator that rejects every token for [reason]. *)
Definition reject_with (reason : string) (token_str : string)
    (expected : ConsentScope) : bool * string * option HushhConsentToken :=
  (false, reason, None).

(** Stand-ins for the sealing collaborators in the examples. *)
Definition seal_plain (payload key : string) : string := payload.
Definition dumps_repr (v : PyVal) : string := repr v.

(** The class of an exception, which is what an [except] clause selects on. *)
Definition exn_class (e : PyExn) : string :=
  match e with
  | KeyError _ => "KeyError"
  | PermissionError _ => "PermissionError"
  | AttributeError _ => "AttributeError"
  | TypeError _ => "TypeError"
  | EOFError => "EOFError"
  | OutOfModel => "OutOfModel"
  end.

(** The five entry points with their operation-specific arguments. *)
Inductive Operation : Type :=
| AssessValues (stdin : list string)
| AnalyzeHistory (period : string)
| SearchProducts (query : string) (budget : PyVal)
| TraceSupplyChain (product_url : string)
| GenerateReport.

(** The scope each entry point passes to [validate_token]. *)
Definition scope_of (op : Operation) : ConsentScope :=
  match op with
  | AssessValues _ => CUSTOM_ETHICAL_VALUES
  | AnalyzeHistory _ => VAULT_READ_EMAIL
  | SearchProducts _ _ => AGENT_SHOPPING_PURCHASE
  | TraceSupplyChain _ => CUSTOM_SUPPLY_CHAIN
  | GenerateReport => VAULT_READ_EMAIL
  end.

Definition checks_identity (op : Operation) : bool :=
  match op with
  | GenerateReport => false
  | _ => true
  end.

Section Collaborators.

Variable EncryptedPayload : Type.
Variable validate_token :
  string -> ConsentScope -> bool * string * option HushhConsentToken.
Variable encrypt_data : string -> string -> EncryptedPayload.
Variable VAULT_ENCRYPTION_KEY : string.
Variable json_dumps : PyVal -> string.
Variable int_of_str : string -> option Z.

(** A call of an entry point, reduced to the dict it returns. *)
Definition run (op : Operation) (user token_str : string)
    : outcome (Response EncryptedPayload) :=
  match op with
  | AssessValues stdin =>
      r <- assess_ethical_values EncryptedPayload validate_token encrypt_data
             VAULT_ENCRYPTION_KEY json_dumps int_of_str user token_str stdin ;;
      Ok (fst r)
  | AnalyzeHistory period =>
      analyze_purchase_history EncryptedPayload validate_token encrypt_data
        VAULT_ENCRYPTION_KEY json_dumps user token_str period
  | SearchProducts query budget =>
      search_ethical_products EncryptedPayload validate_token user token_str
        query budget
  | TraceSupplyChain product_url =>
      trace_supply_chain EncryptedPayload validate_token encrypt_data
        VAULT_ENCRYPTION_KEY json_dumps user token_str product_url
  | GenerateReport =>
      generate_report EncryptedPayload validate_token user token_str
  end.

(** [result["status"] == "success"] *)
Definition succeeded (r : outcome (Response EncryptedPayload)) : Prop :=
  exists fields,
    r = Ok fields /\ get "status" fields = Some (Val (PyStr "success")).

End Collaborators.

Definition consent_message (reason : string) : string :=
  "Consent validation failed: " ++ reason.

Definition mismatch_message : string :=
  "Token user ID does not match provided user".

End AgentSpec.

(** ** Vocabulary of the further properties *)

Module ExtraSpec.
Import Py Scoring ScoringSpec Agent AgentSpec.

Open Scope Q_scope.

(** A whole or a half point. *)
Definition half_integral (x : Q) : Prop := exists z : Z, x == z # 2.

(** The user rates the factor behind [key] at 4 or above. *)
Definition important (key : string) (user_values : list (string * Z)) : Prop :=
  (4 <= importance key user_values)%Z.

(** Two preference profiles that agree on the three keys the engine reads. *)
Definition same_priorities (uv uv' : list (string * Z)) : Prop :=
  get "environmental_importance" uv = get "environmental_importance" uv' /\
  get "labor_practices_importance" uv = get "labor_practices_importance" uv' /\
  get "transparency_importance" uv = get "transparency_importance" uv'.


(** The product with its list of certifications replaced. *)
Definition with_certifications (certs : list string) (product_data : dict) : dict :=
  dict_set "certifications" (PyList (map PyStr certs)) product_data.

(** A product that lists its certifications in capitals. *)
Definition shouting_product : dict :=
  [ ("name", PyStr "Bottle");
    ("certifications", PyList [PyStr "ORGANIC"; PyStr "Fair Trade"; PyStr "Recyclable"]);
    ("origin", PyStr "Domestic") ].

(** The same certifications in small letters. *)
Definition quiet_certifications : list string :=
  ["organic"; "fair trade"; "recyclable"].

(** A profile that rates two of the three factors at 4. *)
Definition two_priorities : list (string * Z) :=
  [ ("labor_practices_importance", 4%Z);
    ("animal_welfare_importance", 5%Z);
    ("transparency_importance", 4%Z) ].

(** The line a summary shows for five scores: the labels of the scores at 4
    or above, in the order of the questions, after [prefix]; [balanced] when
    there is none. *)
Definition priorities_line (prefix balanced : string) (labels : list string)
    (scores : list Z) : string :=
  match map fst (filter (fun p => (4 <=? snd p)%Z) (combine labels scores)) with
  | [] => balanced
  | ps => prefix ++ join ", " ps
  end.

(** The labels the operon derives from its questions. *)
Definition operon_labels : list string :=
  [ "environmental sustainability";
    "fair labor practices";
    "local sourcing vs global supply chains";
    "animal welfare considerations";
    "supply chain transparency" ].

(** The labels [_generate_values_summary] spells out. *)
Definition agent_labels : list string :=
  [ "environmental sustainability";
    "fair labor practices";
    "local sourcing";
    "animal welfare";
    "supply chain transparency" ].

(** A profile by its five scores, in the order of the questions. *)
Definition keyed (e l s a t : Z) : list (string * Z) :=
  [ ("environmental_importance", e);
    ("labor_practices_importance", l);
    ("local_sourcing_preference", s);
    ("animal_welfare_importance", a);
    ("transparency_importance", t) ].

(** [overall] is the weighted sum the engine forms for the product at line
    95, before the user's preferences are applied. *)
Definition weighted_sum_of (product_data : dict)
    (weights : option (list (string * Q))) (overall : Q) : Prop :=
  exists certs c,
    as_str_list (get_default "certifications" (PyList []) product_data)
    = Ok certs /\
    compute_components certs product_data = Ok c /\
    weighted_overall (scores_dict c) (weights_or_default weights) = Ok overall.


(** The entry points that seal what they return. *)
Definition seals (op : Operation) : bool :=
  match op with
  | AssessValues _ | AnalyzeHistory _ | TraceSupplyChain _ => true
  | SearchProducts _ _ | GenerateReport => false
  end.

(** A validation collaborator that accepts every token without decoding
    it. *)
Definition accept_blindly (token_str : string) (expected : ConsentScope)
    : bool * string * option HushhConsentToken :=
  (true, "", None).

End ExtraSpec.

(** * Properties *)

(** ** Arithmetic of [min] and [round] *)

Module PyFacts.
Import Py.

Open Scope Q_scope.

(** Linear arithmetic, with division by the constant 10 turned into a
    multiplication first. *)
Ltac qlinear :=
  unfold Qdiv in *; change (/ 10) with (1 # 10) in *; lra.

Lemma min_le_l (a b : Q) : min a b <= a.
Proof. unfold min. destruct (Qlt_le_dec b a); lra. Qed.

Lemma min_le_r (a b : Q) : min a b <= b.
Proof. unfold min. destruct (Qlt_le_dec b a); lra. Qed.

Lemma min_glb (a b c : Q) : c <= a -> c <= b -> c <= min a b.
Proof. unfold min. destruct (Qlt_le_dec b a); lra. Qed.

Lemma min_mono (a a' b : Q) : a <= a' -> min a b <= min a' b.
Proof. unfold min. destruct (Qlt_le_dec b a), (Qlt_le_dec b a'); lra. Qed.

Lemma tenths_le (a b : Z) : a # 10 <= b # 10 <-> (a <= b)%Z.
Proof. unfold Qle. simpl. lia. Qed.

Lemma floor_ge (k : Z) (x : Q) : inject_Z k <= x -> (k <= Qfloor x)%Z.
Proof.
  intros H. apply Qfloor_resp_le in H. now rewrite Qfloor_Z in H.
Qed.

(** [round1 x] is one of the two tenths around [x]; which one is decided by
    the position of [x] in between. *)
Lemma round1_spec (x : Q) :
  let f := Qfloor (x * 10) in
  let d := x * 10 - inject_Z f in
  (2 * d < 1 /\ round1 x = f # 10) \/
  (1 < 2 * d /\ round1 x = (f + 1) # 10) \/
  (2 * d == 1 /\ round1 x = (if Z.even f then f else (f + 1)%Z) # 10).
Proof.
  intros f d. unfold round1. fold f.
  destruct (2 * (x * 10 - inject_Z f) ?= 1) eqn:E.
  - right; right. split; [now apply Qeq_alt | reflexivity].
  - left. split; [now apply Qlt_alt | reflexivity].
  - right; left. split; [now apply Qgt_alt | reflexivity].
Qed.

Lemma round1_lower (k : Z) (x : Q) : k # 10 <= x -> k # 10 <= round1 x.
Proof.
  intros H.
  assert (Hk : (k <= Qfloor (x * 10))%Z).
  { apply floor_ge. unfold Qle in *. simpl in *. lia. }
  destruct (round1_spec x) as [[_ ->] | [[_ ->] | [_ ->]]];
    try destruct (Z.even _); apply tenths_le; lia.
Qed.

Lemma round1_upper (k : Z) (x : Q) : x <= k # 10 -> round1 x <= k # 10.
Proof.
  intros H.
  assert (Hn : x * 10 <= inject_Z k).
  { unfold Qle in *. simpl in *. lia. }
  pose proof (Qfloor_le (x * 10)) as Hf.
  assert (Hk : (Qfloor (x * 10) <= k)%Z).
  { rewrite Zle_Qle. lra. }
  destruct (Z.eq_dec (Qfloor (x * 10)) k) as [E | NE].
  - destruct (round1_spec x) as [[_ ->] | [[Hd _] | [Hd _]]].
    + apply tenths_le; lia.
    + rewrite E in Hd. lra.
    + rewrite E in Hd. lra.
  - destruct (round1_spec x) as [[_ ->] | [[_ ->] | [_ ->]]];
      try destruct (Z.even _); apply tenths_le; lia.
Qed.

Lemma round1_mono (x y : Q) : x <= y -> round1 x <= round1 y.
Proof.
  intros H.
  assert (Hxy : x * 10 <= y * 10) by lra.
  pose proof (Qfloor_resp_le _ _ Hxy) as Hf.
  destruct (Z.eq_dec (Qfloor (x * 10)) (Qfloor (y * 10))) as [E | NE].
  - destruct (round1_spec x) as [[Hx ->] | [[Hx ->] | [Hx ->]]];
      destruct (round1_spec y) as [[Hy ->] | [[Hy ->] | [Hy ->]]];
      rewrite <- ?E in *; try destruct (Z.even _);
      try (apply tenths_le; lia); exfalso; lra.
  - assert (Hlt : (Qfloor (x * 10) + 1 <= Qfloor (y * 10))%Z) by lia.
    destruct (round1_spec x) as [[_ ->] | [[_ ->] | [_ ->]]];
      destruct (round1_spec y) as [[_ ->] | [[_ ->] | [_ ->]]];
      repeat destruct (Z.even _); apply tenths_le; lia.
Qed.

End PyFacts.

(** ** Substring tests on printed values *)

Module StringFacts.
Import Py ScoringSpec.

Lemma append_assoc (a b c : string) : (a ++ b) ++ c = a ++ b ++ c.
Proof. induction a as [| x a IH]; simpl; [reflexivity | now rewrite IH]. Qed.

Lemma append_nil_r (a : string) : a ++ "" = a.
Proof. induction a as [| x a IH]; simpl; [reflexivity | now rewrite IH]. Qed.


Lemma lower_app (a b : string) : lower (a ++ b) = lower a ++ lower b.
Proof. induction a as [| x a IH]; simpl; [reflexivity | now rewrite IH]. Qed.










(** *** The text of a dict around one of its items *)

Lemma join_cons (sep x : string) (xs : list string) :
  join sep (x :: xs) = x ++ join_post sep xs.
Proof.
  revert x. induction xs as [| y t IH]; intros x.
  - simpl. now rewrite append_nil_r.
  - change (join sep (x :: y :: t)) with (x ++ sep ++ join sep (y :: t)).
    rewrite IH. reflexivity.
Qed.

Lemma join_split (sep y : string) (xs zs : list string) :
  join sep (xs ++ y :: zs) = join_pre sep xs ++ y ++ join_post sep zs.
Proof.
  induction xs as [| x t IH].
  - apply join_cons.
  - destruct t as [| x' t'].
    + simpl app. change (join sep (x :: y :: zs)) with (x ++ sep ++ join sep (y :: zs)).
      rewrite join_cons. simpl. now rewrite !append_assoc.
    + change (join sep ((x :: x' :: t') ++ y :: zs))
        with (x ++ sep ++ join sep ((x' :: t') ++ y :: zs)).
      rewrite IH. simpl join_pre. now rewrite !append_assoc.
Qed.


Lemma repr_dict (d : dict) :
  repr (PyDict d) = "{" ++ join ", " (map repr_item d) ++ "}".
Proof.
  simpl. do 3 f_equal. apply map_ext. now intros [k x].
Qed.

(** The text of a dict is the text before the value of a key, the value,
    and the text after it, which opens with a comma or the closing brace. *)
Lemma repr_dict_around (d1 d2 : dict) (k : string) :
  exists before ch after,
    (ch = ","%char \/ ch = "}"%char) /\
    forall v,
      repr (PyDict (d1 ++ (k, v) :: d2))
      = before ++ String " " (repr v ++ String ch after).
Proof.
  destruct d2 as [| kv d2'].
  - exists ("{" ++ join_pre ", " (map repr_item d1) ++ repr_str k ++ ":"),
           "}"%char, "".
    split; [now right |]. intros v.
    rewrite repr_dict, map_app. cbn [map]. rewrite join_split.
    unfold repr_item at 2. cbn [fst snd join_post fold_right].
    rewrite !append_assoc. cbn [append]. reflexivity.
  - exists ("{" ++ join_pre ", " (map repr_item d1) ++ repr_str k ++ ":"),
           ","%char,
           (" " ++ repr_item kv ++ join_post ", " (map repr_item d2') ++ "}").
    split; [now left |]. intros v.
    rewrite repr_dict, map_app. cbn [map]. rewrite join_split.
    unfold repr_item at 2. cbn [fst snd join_post fold_right].
    rewrite !append_assoc. cbn [append]. reflexivity.
Qed.


(** *** [d[k] = v] *)

Lemma dict_set_present {V : Type} (k : string) (v0 : V) (d : list (string * V)) :
  get k d = Some v0 ->
  exists d1 d2,
    d = (d1 ++ (k, v0) :: d2)%list /\
    forall v, dict_set k v d = (d1 ++ (k, v) :: d2)%list.
Proof.
  induction d as [| [k' v'] t IH]; simpl; [discriminate |].
  destruct (String.eqb_spec k' k) as [-> | Hne].
  - intros [= ->]. exists [], t. split; reflexivity.
  - intros H. destruct (IH H) as (d1 & d2 & -> & Hset).
    exists ((k', v') :: d1), d2. split; [reflexivity |].
    intros v. simpl. now rewrite Hset.
Qed.


Lemma get_dict_set_same {V : Type} (k : string) (v : V) (d : list (string * V)) :
  get k (dict_set k v d) = Some v.
Proof.
  induction d as [| [k' v'] t IH]; simpl.
  - now rewrite String.eqb_refl.
  - destruct (String.eqb k' k) eqn:E; simpl.
    + now rewrite String.eqb_refl.
    + now rewrite E.
Qed.

Lemma get_dict_set_other {V : Type} (k k' : string) (v : V)
    (d : list (string * V)) :
  k' <> k -> get k' (dict_set k v d) = get k' d.
Proof.
  intros Hne. induction d as [| [k0 v0] t IH]; simpl.
  - destruct (String.eqb_spec k k'); [now subst | reflexivity].
  - destruct (String.eqb_spec k0 k) as [-> | Hk]; simpl.
    + destruct (String.eqb_spec k k'); [now subst | reflexivity].
    + destruct (String.eqb k0 k'); [reflexivity | exact IH].
Qed.

(** *** The "recyclable" test under the two extensions *)




End StringFacts.

(** ** The scoring engine *)

Module ScoringFacts.
Import Py Scoring ScoringSpec PyFacts.

Open Scope Q_scope.

Lemma bind_ok {A B : Type} (m : outcome A) (k : A -> outcome B) (b : B) :
  bind m k = Ok b -> exists a, m = Ok a /\ k a = Ok b.
Proof. destruct m as [a | e]; simpl; [eauto | discriminate]. Qed.

Ltac invert_bind H :=
  let a := fresh "a" in
  let E := fresh "E" in
  apply bind_ok in H; destruct H as (a & E & H).

(** *** Inversion of a successful call *)

Lemma score_inv (pd : dict) (uv : list (string * Z))
    (w : option (list (string * Q))) (r : ScoreResult) :
  score_ethical_factors pd uv w = Ok r ->
  exists certs c overall,
    as_str_list (get_default "certifications" (PyList []) pd) = Ok certs /\
    compute_components certs pd = Ok c /\
    weighted_overall (scores_dict c) (weights_or_default w) = Ok overall /\
    r = assemble certs c overall uv.
Proof.
  unfold score_ethical_factors. intros H.
  invert_bind H. invert_bind H. invert_bind H.
  injection H as <-. eauto 8.
Qed.

Lemma components_inv (certs : list string) (pd : dict) (c : Components) :
  compute_components certs pd = Ok c ->
  exists origin sc t n,
    as_str (get_default "origin" (PyStr "unknown") pd) = Ok origin /\
    as_dict (get_default "supply_chain" (PyDict []) pd) = Ok sc /\
    as_number (get_default "transparency_score" (PyInt 5) sc) = Ok t /\
    list_len (get_default "tier_visibility" (PyList []) sc) = Ok n /\
    c = {| environmental :=
             env_score certs
               (get_default "environmental_impact" (PyDict []) pd) pd;
           labor :=
             labor_score certs (get_default "labor_practices" (PyDict []) pd);
           supply_chain := supply_score t origin n;
           transparency :=
             trans_score certs
               (get_default "public_reporting" (PyBool false) sc);
           certifications := cert_score certs |}.
Proof.
  unfold compute_components. intros H.
  invert_bind H. invert_bind H. invert_bind H. invert_bind H.
  injection H as <-. eauto 10.
Qed.

(** *** Bounds of the component scores *)

Lemma bonus_ge (b : bool) (a s : Q) : 0 <= a -> s <= bonus b a s.
Proof. unfold bonus. destruct b; lra. Qed.

Lemma bonus_true (a s : Q) : bonus true a s = s + a.
Proof. reflexivity. Qed.

Lemma bonus_false (a s : Q) : bonus false a s = s.
Proof. reflexivity. Qed.

(** One case per combination of the bonuses whose condition is not known. *)
Ltac bonus_cases :=
  rewrite ?bonus_true, ?bonus_false; unfold bonus;
  repeat match goal with
         | |- context [if ?b then _ else _] => destruct b
         end.


Lemma clamp_le (s : Q) : min s 10.0 <= 10.
Proof. eapply Qle_trans; [apply min_le_r | lra]. Qed.

Lemma clamp_ge (lo s : Q) : lo <= 10 -> lo <= s -> lo <= min s 10.0.
Proof. intros H1 H2. apply min_glb; lra. Qed.

Lemma env_score_range (certs : list string) (ei : PyVal) (pd : dict) :
  5 <= env_score certs ei pd <= 10.
Proof.
  unfold env_score. split; [apply clamp_ge; [lra |] | apply clamp_le].
  repeat (eapply Qle_trans; [| apply bonus_ge; lra]). lra.
Qed.

Lemma labor_score_range (certs : list string) (lp : PyVal) :
  5 <= labor_score certs lp <= 10.
Proof.
  unfold labor_score. split; [apply clamp_ge; [lra |] | apply clamp_le].
  repeat (eapply Qle_trans; [| apply bonus_ge; lra]). lra.
Qed.

Lemma trans_score_range (certs : list string) (pr : PyVal) :
  5 <= trans_score certs pr <= 10.
Proof.
  unfold trans_score. split; [apply clamp_ge; [lra |] | apply clamp_le].
  repeat (eapply Qle_trans; [| apply bonus_ge; lra]). lra.
Qed.

Lemma cert_score_range (certs : list string) : 0 <= cert_score certs <= 10.
Proof.
  unfold cert_score. split; [apply clamp_ge; [lra |] | apply clamp_le].
  assert (H : 0 <= inject_Z (Z.of_nat (List.length certs))).
  { rewrite <- (Zle_Qle 0). lia. }
  nra.
Qed.


Lemma supply_score_ge (t : Q) (origin : string) (n : nat) :
  0 <= t -> 0 <= supply_score t origin n.
Proof.
  intros Ht. unfold supply_score. apply clamp_ge; [lra |].
  repeat (eapply Qle_trans; [| apply bonus_ge; lra]). exact Ht.
Qed.



(** *** The weighted sum *)

Lemma get_Forall {V : Type} (P : V -> Prop) (k : string) (d : list (string * V))
    (x : V) :
  Forall (fun kv => P (snd kv)) d -> get k d = Some x -> P x.
Proof.
  induction 1 as [| [k' v] t Hv _ IH]; simpl; [discriminate |].
  destruct (String.eqb k' k); [intros [= <-]; exact Hv | exact IH].
Qed.

Lemma get_keys {V : Type} (k : string) (d : list (string * V)) :
  In k (keys d) -> exists x, get k d = Some x.
Proof.
  induction d as [| [k' v] t IH]; simpl; [contradiction |].
  intros [-> | H].
  - rewrite String.eqb_refl. eauto.
  - destruct (String.eqb k' k); eauto.
Qed.

Lemma get_not_keys {V : Type} (k : string) (d : list (string * V)) :
  ~ In k (keys d) -> get k d = None.
Proof.
  induction d as [| [k' v] t IH]; simpl; [reflexivity |].
  intros H. destruct (String.eqb_spec k' k) as [-> | _]; [tauto |].
  apply IH. tauto.
Qed.

Lemma get_NoDup {V : Type} (k : string) (x : V) (d : list (string * V)) :
  NoDup (keys d) -> In (k, x) d -> get k d = Some x.
Proof.
  induction d as [| [k' v] t IH]; simpl; [contradiction |].
  intros Hnd [[= -> ->] | Hin].
  - now rewrite String.eqb_refl.
  - inversion Hnd as [| ? ? Hk Ht]; subst.
    destruct (String.eqb_spec k' k) as [-> | _]; [| now apply IH].
    exfalso. apply Hk. change k with (fst (k, x)). now apply in_map.
Qed.

Lemma fold_plus_shift (xs : list Q) (a : Q) :
  fold_left Qplus xs a == a + fold_left Qplus xs 0.
Proof.
  revert a. induction xs as [| x t IH]; intros a; simpl; [lra |].
  rewrite (IH (a + x)), (IH (0 + x)). lra.
Qed.

Lemma sum_cons (x : Q) (xs : list Q) : sum (x :: xs) == x + sum xs.
Proof. unfold sum. simpl. rewrite fold_plus_shift. lra. Qed.

Lemma sum_nonneg (xs : list Q) : Forall (fun x => 0 <= x) xs -> 0 <= sum xs.
Proof.
  induction 1 as [| x t Hx _ IH]; [unfold sum; simpl; lra |].
  rewrite sum_cons. lra.
Qed.

Lemma weighted_terms_nonneg (scores weights : list (string * Q))
    (factors : list string) (terms : list Q) :
  Forall (fun kv => 0 <= snd kv) scores ->
  Forall (fun kv => 0 <= snd kv) weights ->
  weighted_terms scores weights factors = Ok terms ->
  Forall (fun x => 0 <= x) terms.
Proof.
  intros Hs Hw. revert terms.
  induction factors as [| f rest IH]; simpl; intros terms H.
  - injection H as <-. constructor.
  - invert_bind H. invert_bind H. invert_bind H. injection H as <-.
    unfold subscript in *.
    destruct (get f scores) as [s |] eqn:Gs; [| discriminate].
    destruct (get f weights) as [x |] eqn:Gw; [| discriminate].
    injection E as <-. injection E0 as <-.
    constructor; [| now apply IH].
    apply (get_Forall (fun v => 0 <= v)) in Gs; [| exact Hs].
    apply (get_Forall (fun v => 0 <= v)) in Gw; [| exact Hw].
    now apply Qmult_le_0_compat.
Qed.

Lemma subscript_scores (c : Components) (factor : string) :
  In factor factor_names ->
  subscript (scores_dict c) factor = Ok (score_at c factor).
Proof.
  unfold factor_names.
  intros [<- | [<- | [<- | [<- | [<- | []]]]]]; reflexivity.
Qed.

Lemma subscript_scores_unknown (c : Components) (factor : string) :
  ~ In factor factor_names ->
  subscript (scores_dict c) factor = Raise (KeyError factor).
Proof.
  intros H. unfold subscript.
  rewrite get_not_keys; [reflexivity | exact H].
Qed.

(** The terms of the sum, when every key of the mapping is a factor name. *)
Lemma weighted_terms_known (c : Components) (weights : list (string * Q))
    (entries : list (string * Q)) :
  NoDup (keys weights) ->
  incl entries weights ->
  incl (keys entries) factor_names ->
  weighted_terms (scores_dict c) weights (keys entries)
  = Ok (map (fun kv => score_at c (fst kv) * snd kv) entries).
Proof.
  intros Hnd. induction entries as [| [k x] t IH]; intros Hin Hk; [reflexivity |].
  simpl. rewrite subscript_scores by (apply Hk; now left). simpl.
  unfold subscript at 1.
  rewrite (get_NoDup k x) by (trivial; apply Hin; now left). simpl.
  rewrite IH; [reflexivity | |].
  - intros e He. apply Hin. now right.
  - intros e He. apply Hk. now right.
Qed.

(** The first key that is not a factor name stops the call. *)
Lemma weighted_terms_unknown (c : Components) (weights : list (string * Q))
    (factors : list string) :
  incl factors (keys weights) ->
  Exists (fun k => ~ In k factor_names) factors ->
  exists k, In k factors /\ ~ In k factor_names /\
    weighted_terms (scores_dict c) weights factors = Raise (KeyError k).
Proof.
  induction factors as [| f rest IH]; intros Hin Hex; [inversion Hex |].
  destruct (in_dec string_dec f factor_names) as [Hf | Hf].
  - assert (Hrest : Exists (fun k => ~ In k factor_names) rest).
    { inversion Hex; subst; [contradiction | assumption]. }
    destruct IH as (k & Hk & Hnk & E); [| exact Hrest |].
    { intros e He. apply Hin. now right. }
    exists k. split; [now right | split; [exact Hnk |]].
    simpl. rewrite subscript_scores by exact Hf. simpl.
    destruct (get_keys f weights) as [x Gx]; [apply Hin; now left |].
    unfold subscript at 1. rewrite Gx. simpl. now rewrite E.
  - exists f. split; [now left | split; [exact Hf |]].
    simpl. now rewrite subscript_scores_unknown.
Qed.

Lemma weight_of_absent (weights : list (string * Q)) (k : string) :
  ~ In k (keys weights) -> weight_of weights k = 0.
Proof.
  intros H. unfold weight_of, get_default. now rewrite get_not_keys.
Qed.

Lemma weight_of_cons (k f : string) (x : Q) (weights : list (string * Q)) :
  weight_of ((k, x) :: weights) f
  = if String.eqb k f then x else weight_of weights f.
Proof.
  unfold weight_of, get_default. simpl. now destruct (String.eqb k f).
Qed.

(** Summing over the entries of the mapping is summing over the five factors,
    a factor without an entry weighing nothing. *)
Lemma sum_over_entries (c : Components) (weights : list (string * Q)) :
  NoDup (keys weights) ->
  incl (keys weights) factor_names ->
  sum (map (fun kv => score_at c (fst kv) * snd kv) weights)
  == spec_weighted_sum c weights.
Proof.
  induction weights as [| [k x] t IH]; intros Hnd Hk.
  - unfold spec_weighted_sum, weight_of, get_default, sum. simpl. lra.
  - inversion Hnd as [| ? ? Hnk Ht]; subst.
    simpl map. rewrite sum_cons, IH; [| exact Ht |].
    2:{ intros e He. apply Hk. now right. }
    pose proof (weight_of_absent t k Hnk) as Hz.
    unfold spec_weighted_sum. rewrite !weight_of_cons.
    assert (Hin : In k factor_names) by (apply Hk; now left).
    unfold factor_names in Hin. simpl fst. simpl snd.
    destruct Hin as [<- | [<- | [<- | [<- | [<- | []]]]]];
      simpl; rewrite Hz; unfold score_at, get_default; simpl; lra.
  Qed.

Lemma component_cases (certs : list string) (c : Components) (overall : Q)
    (uv : list (string * Z)) (k : string) (x : Q) :
  component (assemble certs c overall uv) k x ->
  (k = "environmental" /\ x = round1 (environmental c)) \/
  (k = "labor" /\ x = round1 (labor c)) \/
  (k = "supply_chain" /\ x = round1 (supply_chain c)) \/
  (k = "transparency" /\ x = round1 (transparency c)) \/
  (k = "certifications" /\ x = round1 (certifications c)).
Proof.
  unfold component. simpl.
  intros [[= <- <-] | [[= <- <-] | [[= <- <-] | [[= <- <-] | [[= <- <-] | []]]]]];
    tauto.
Qed.

End ScoringFacts.

Module ScoringTheorems.
Import Py Scoring ScoringSpec PyFacts ScoringFacts.

Open Scope Q_scope.




Lemma test_product_a_nonneg : transparency_nonneg test_product_a.
Proof.
  intros sc v t Hsc Hv Ht. simpl in Hsc. injection Hsc as <-.
  simpl in Hv. injection Hv as <-. simpl in Ht. injection Ht as <-.
  unfold Qle. simpl. lia.
Qed.

Lemma default_weights_nonneg : weights_nonneg None.
Proof.
  unfold weights_nonneg. simpl.
  repeat constructor; simpl; lra.
Qed.







(** C10.  With caller-supplied weights [w], a key that is not one of the
    five factor names makes the call fail, with [KeyError] for such a key as
    soon as the product itself can be read.  When the call returns, every
    key of [w] is a factor name and ([w] being a mapping: its keys are
    distinct) the weighted overall score of line 95 is the sum over the
    entries of [w] alone, which is the sum over the five factors in which a
    factor without an entry weighs nothing; the returned overall score is
    that sum times the user-preference multiplier, clamped and rounded. *)
Theorem weights_select_factors (pd : dict) (uv : list (string * Z))
    (w : list (string * Q)) :
  ((exists k, In k (keys w) /\ ~ In k factor_names) ->
     is_ok (score_ethical_factors pd uv (Some w)) = false /\
     forall certs c,
       as_str_list (get_default "certifications" (PyList []) pd) = Ok certs ->
       compute_components certs pd = Ok c ->
       exists k, In k (keys w) /\ ~ In k factor_names /\
         score_ethical_factors pd uv (Some w) = Raise (KeyError k)) /\
  (forall r,
     score_ethical_factors pd uv (Some w) = Ok r ->
     incl (keys w) factor_names /\
     (NoDup (keys w) ->
      exists certs c overall,
        compute_components certs pd = Ok c /\
        weighted_overall (scores_dict c) w = Ok overall /\
        overall = sum (map (fun kv => score_at c (fst kv) * snd kv) w) /\
        overall == spec_weighted_sum c w /\
        overall_score r
        = round1 (min (overall * user_weight_multiplier c uv) 10.0))).
Proof.
  assert (Hfail : forall c,
            (exists k, In k (keys w) /\ ~ In k factor_names) ->
            exists k, In k (keys w) /\ ~ In k factor_names /\
              weighted_overall (scores_dict c) w = Raise (KeyError k)).
  { intros c (k & Hk & Hnk).
    destruct (weighted_terms_unknown c w (keys w)) as (k' & Hk' & Hnk' & E).
    - apply incl_refl.
    - apply Exists_exists. eauto.
    - exists k'. unfold weighted_overall. rewrite E. auto. }
  split.
  - intros Hbad. split.
    + unfold score_ethical_factors.
      destruct (as_str_list _) as [certs |]; [simpl | reflexivity].
      destruct (compute_components certs pd) as [c |]; [simpl | reflexivity].
      destruct (Hfail c Hbad) as (k & _ & _ & E).
      unfold weights_or_default. now rewrite E.
    + intros certs c Hc Hcomp.
      destruct (Hfail c Hbad) as (k & Hk & Hnk & E).
      exists k. split; [exact Hk | split; [exact Hnk |]].
      unfold score_ethical_factors. rewrite Hc. simpl. rewrite Hcomp. simpl.
      unfold weights_or_default. now rewrite E.
  - intros r H.
    destruct (score_inv _ _ _ _ H) as (certs & c & overall & _ & Hcomp & Hw & ->).
    simpl in Hw.
    assert (Hincl : incl (keys w) factor_names).
    { intros k Hk.
      destruct (in_dec string_dec k factor_names) as [Hin | Hout]; [exact Hin |].
      destruct (Hfail c (ex_intro _ k (conj Hk Hout))) as (k' & _ & _ & E).
      rewrite E in Hw. discriminate Hw. }
    split; [exact Hincl |]. intros Hnd.
    exists certs, c, overall.
    assert (Eo : overall = sum (map (fun kv => score_at c (fst kv) * snd kv) w)).
    { unfold weighted_overall in Hw.
      rewrite (weighted_terms_known c w w Hnd (incl_refl _) Hincl) in Hw.
      simpl in Hw. now injection Hw as <-. }
    repeat (split; [assumption || reflexivity |]).
    split; [| reflexivity].
    rewrite Eo. now apply sum_over_entries.
Qed.

(** Weights with the unknown key "price", and weights for two factors
    only. *)
Lemma weights_select_factors_witness :
  is_ok (score_ethical_factors test_product_b test_values_b
           (Some unknown_weights)) = false /\
  exists r c,
    score_ethical_factors test_product_b test_values_b (Some partial_weights)
    = Ok r /\
    overall_score r
    = round1 (min (sum (map (fun kv => score_at c (fst kv) * snd kv)
                          partial_weights)
                   * user_weight_multiplier c test_values_b) 10.0).
Proof.
  assert (Hp : NoDup (keys partial_weights)).
  { unfold partial_weights. simpl.
    repeat constructor; simpl; intuition discriminate. }
  split.
  - apply (weights_select_factors test_product_b test_values_b
             unknown_weights).
    exists "price". unfold unknown_weights, factor_names. simpl.
    intuition discriminate.
  - eexists.
    match goal with
    | |- exists c, score_ethical_factors ?pd ?uv ?w = Ok ?r /\ _ =>
        assert (H : score_ethical_factors pd uv w = Ok r)
          by (vm_compute; reflexivity)
    end.
    destruct (proj2 (weights_select_factors test_product_b test_values_b
                       partial_weights) _ H)
      as (_ & Hsum).
    destruct (Hsum Hp) as (certs & c & overall & _ & _ & Eo & _ & Er).
    exists c. split; [exact H |]. rewrite Er, Eo. reflexivity.
Defined.

(** *** The two scenarios *)

Lemma importance_true (key : string) (uv : list (string * Z)) :
  (4 <= importance key uv)%Z -> (4 <=? importance key uv)%Z = true.
Proof. intros H. now apply Z.leb_le. Qed.

Lemma multiplier_all (c : Components) (uv : list (string * Z)) :
  cares_about_all uv ->
  user_weight_multiplier c uv
  = 1.0 + 0.1 * (environmental c / 10) + 0.1 * (labor c / 10)
    + 0.1 * (transparency c / 10).
Proof.
  intros (He & Hl & Ht). unfold user_weight_multiplier.
  now rewrite !importance_true by assumption.
Qed.

Lemma default_overall (c : Components) :
  exists overall,
    weighted_overall (scores_dict c) default_weights = Ok overall /\
    overall == environmental c * 0.25 + labor c * 0.25 + supply_chain c * 0.20
               + transparency c * 0.15 + certifications c * 0.15.
Proof.
  eexists. split; [reflexivity |].
  unfold sum. cbn [fold_left]. lra.
Qed.

Lemma scenario_a_components (pd : dict) :
  scenario_a pd ->
  exists certs c,
    as_str_list (get_default "certifications" (PyList []) pd) = Ok certs /\
    compute_components certs pd = Ok c /\
    6.5 <= environmental c <= 10 /\ 7 <= labor c <= 10 /\
    supply_chain c == 10 /\ transparency c == 9.5 /\ certifications c == 4.5.
Proof.
  intros (Hc & Ho & sc & t1 & t2 & t3 & Hsc & Ht & Hp & Hv).
  exists ["Fair Trade"; "B-Corp"; "Organic"].
  eexists. unfold compute_components, get_default.
  rewrite Hc, Ho, Hsc. cbn [as_str_list as_str_items as_str as_dict bind].
  rewrite Ht, Hp, Hv. cbn [as_number list_len bind List.length].
  split; [reflexivity |]. split; [reflexivity |].
  cbn [environmental labor supply_chain transparency certifications].
  split; [| split; [| split; [| split]]];
    [| | vm_compute; reflexivity ..].
  - split; [| apply env_score_range].
    unfold env_score.
    change (mem "organic" (map lower ["Fair Trade"; "B-Corp"; "Organic"]))
      with true.
    apply clamp_ge; [lra |]. bonus_cases; lra.
  - split; [| apply labor_score_range].
    unfold labor_score.
    change (mem "fair trade" (map lower ["Fair Trade"; "B-Corp"; "Organic"]))
      with true.
    change (mem "sa8000" (map lower ["Fair Trade"; "B-Corp"; "Organic"]))
      with false.
    apply clamp_ge; [lra |]. bonus_cases; lra.
Qed.

(** C7.  Whatever else the product holds, certifications
    ["Fair Trade", "B-Corp", "Organic"], origin "Local, USA", a supply-chain
    descriptor with transparency score 8, public reporting and three
    visible tiers, scored with the default weights for a user whose
    environmental, labor and transparency importances are at least 4, give
    an overall score of at least 7.0 and the alignment "high". *)
Theorem scenario_a_scores_high (pd : dict) (uv : list (string * Z)) :
  scenario_a pd ->
  cares_about_all uv ->
  exists r,
    score_ethical_factors pd uv None = Ok r /\
    7.0 <= overall_score r /\
    user_alignment r = "high".
Proof.
  intros Hs Hu.
  destruct (scenario_a_components pd Hs)
    as (certs & c & Hc & Hcomp & He & Hl & Hsu & Htr & Hce).
  destruct (default_overall c) as (overall & Hw & Eo).
  exists (assemble certs c overall uv).
  unfold score_ethical_factors. rewrite Hc. cbn [bind]. rewrite Hcomp.
  cbn [bind weights_or_default]. rewrite Hw. cbn [bind].
  split; [reflexivity |].
  assert (Hm : user_weight_multiplier c uv
               == 1.0 + 0.1 * (environmental c / 10) + 0.1 * (labor c / 10)
                  + 0.1 * (transparency c / 10)).
  { now rewrite multiplier_all. }
  assert (Hm1 : 1.2 <= user_weight_multiplier c uv).
  { rewrite Hm, Htr. qlinear. }
  assert (Ho : 7.4 <= overall).
  { rewrite Eo, Hsu, Htr, Hce. lra. }
  split.
  - cbn [assemble overall_score]. apply (round1_lower 70).
    apply min_glb; [| lra]. nra.
  - cbn [assemble user_alignment].
    destruct (Qlt_le_dec 1.05 (user_weight_multiplier c uv)); [reflexivity | lra].
Qed.

(** The product and the user of the first scoring test. *)
Lemma scenario_a_scores_high_witness :
  exists r,
    score_ethical_factors test_product_a test_values_a None = Ok r /\
    7.0 <= overall_score r /\
    user_alignment r = "high".
Proof.
  apply scenario_a_scores_high.
  - unfold scenario_a, test_product_a.
    split; [reflexivity |]. split; [reflexivity |].
    eexists _, _, _, _. repeat split; reflexivity.
  - unfold cares_about_all, importance, get_default, test_values_a.
    simpl. lia.
Defined.

Lemma scenario_b_components (pd : dict) :
  scenario_b pd ->
  exists c,
    as_str_list (get_default "certifications" (PyList []) pd) = Ok [] /\
    compute_components [] pd = Ok c /\
    5 <= environmental c <= 7.5 /\ 5 <= labor c <= 7.5 /\
    supply_chain c = inject_Z 2 /\ transparency c == 5 /\ certifications c == 0.
Proof.
  intros (Hc & Ho & sc & tiers & Hsc & Ht & Hp & Hv & Hlen).
  assert (Eo : get_default "origin" (PyStr "unknown") pd = PyStr "Unknown")
    by (unfold get_default; now rewrite Ho).
  assert (Esc : get_default "supply_chain" (PyDict []) pd = PyDict sc)
    by (unfold get_default; now rewrite Hsc).
  assert (Ets : get_default "transparency_score" (PyInt 5) sc = PyInt 2)
    by (unfold get_default; now rewrite Ht).
  eexists. unfold compute_components. rewrite Hc, Eo, Esc.
  cbn [as_str_list as_str_items as_str as_dict bind].
  rewrite Ets, Hv. cbn [as_number list_len bind].
  split; [reflexivity |]. split; [reflexivity |].
  cbn [environmental labor supply_chain transparency certifications].
  split; [| split; [| split; [| split]]].
  - split; [apply env_score_range |].
    unfold env_score. change (mem "organic" (map lower [])) with false.
    eapply Qle_trans; [apply min_le_l |]. bonus_cases; lra.
  - split; [apply labor_score_range |].
    unfold labor_score.
    change (mem "fair trade" (map lower [])) with false.
    change (mem "sa8000" (map lower [])) with false.
    eapply Qle_trans; [apply min_le_l |]. bonus_cases; lra.
  - unfold supply_score.
    change (orb (contains "local" (lower "Unknown"))
                (contains "domestic" (lower "Unknown"))) with false.
    assert (Et : (2 <? List.length tiers)%nat = false)
      by (apply Nat.ltb_ge; exact Hlen).
    rewrite Et, !bonus_false. reflexivity.
  - unfold trans_score. rewrite Hp. vm_compute. reflexivity.
  - vm_compute. reflexivity.
Qed.

(** C8.  A product with no certifications, origin "Unknown" and a
    supply-chain descriptor with the transparency score 2 that reports
    nothing more, scored with the default weights for a user whose
    environmental, labor and transparency importances are at least 4, gets
    an overall score of at most 6.0 and a non-empty list of concerns,
    whatever its labor and environmental attributes are. *)
Theorem scenario_b_scores_low (pd : dict) (uv : list (string * Z)) :
  scenario_b pd ->
  cares_about_all uv ->
  exists r,
    score_ethical_factors pd uv None = Ok r /\
    overall_score r <= 6.0 /\
    concerns r <> [] /\
    In "Limited supply chain information" (concerns r).
Proof.
  intros Hs Hu.
  destruct (scenario_b_components pd Hs)
    as (c & Hc & Hcomp & He & Hl & Hsu & Htr & Hce).
  destruct (default_overall c) as (overall & Hw & Eo).
  exists (assemble [] c overall uv).
  unfold score_ethical_factors. rewrite Hc. cbn [bind]. rewrite Hcomp.
  cbn [bind weights_or_default]. rewrite Hw. cbn [bind].
  split; [reflexivity |].
  assert (Hm : user_weight_multiplier c uv
               == 1.0 + 0.1 * (environmental c / 10) + 0.1 * (labor c / 10)
                  + 0.1 * (transparency c / 10)).
  { now rewrite multiplier_all. }
  assert (Hm1 : 1 <= user_weight_multiplier c uv <= 1.2).
  { rewrite Hm, Htr. split; qlinear. }
  assert (Ho : 0 <= overall <= 4.9).
  { rewrite Eo, Hsu, Htr, Hce. change (inject_Z 2) with 2. split; lra. }
  assert (Hin : In "Limited supply chain information"
                   (concerns (assemble [] c overall uv))).
  { cbn [assemble concerns].
    change "Limited supply chain information"
      with (concern_text ("supply_chain", supply_chain c)).
    apply in_map. apply filter_In. split.
    - unfold scores_dict. simpl. tauto.
    - rewrite Hsu. reflexivity. }
  split; [| split; [| exact Hin]].
  - cbn [assemble overall_score]. apply (round1_upper 60).
    eapply Qle_trans; [apply min_le_l |]. nra.
  - intros E. rewrite E in Hin. exact Hin.
Qed.

(** The product and the user of the second scoring test. *)
Lemma scenario_b_scores_low_witness :
  exists r,
    score_ethical_factors test_product_b test_values_b None = Ok r /\
    overall_score r <= 6.0 /\
    concerns r <> [] /\
    In "Limited supply chain information" (concerns r).
Proof.
  apply scenario_b_scores_low.
  - unfold scenario_b, test_product_b.
    split; [reflexivity |]. split; [reflexivity |].
    exists [("transparency_score", PyInt 2)], [].
    repeat split; try reflexivity. simpl. lia.
  - unfold cares_about_all, importance, get_default, test_values_b.
    simpl. lia.
Defined.

(** The bound of scenario B rests on the attributes it does not mention
    carrying no weight of their own: with public reporting, three visible
    tiers and every textual flag set, the same certifications, origin and
    transparency score give 6.5. *)
Example flagged_product_b_score :
  exists r,
    score_ethical_factors flagged_product_b test_values_b None = Ok r /\
    overall_score r == 6.5.
Proof. eexists. split; vm_compute; reflexivity. Qed.

End ScoringTheorems.

(** ** Monotonicity of the component scores *)

Module Monotonicity.
Import Py Scoring ScoringSpec PyFacts StringFacts ScoringFacts.

Open Scope Q_scope.

















(** The example above in numbers. *)
Example plain_product_scores :
  exists r r1 r2,
    score_ethical_factors plain_product [] None = Ok r /\
    score_ethical_factors (add_certification "Organic" plain_product) [] None
    = Ok r1 /\
    score_ethical_factors (set_public_reporting plain_product) [] None
    = Ok r2 /\
    map snd (component_scores r) = [5.5; 8.0; 6.5; 5.0; 3.0] /\
    map snd (component_scores r1) = [7.0; 8.0; 6.5; 6.0; 4.5] /\
    map snd (component_scores r2) = [5.5; 8.0; 6.5; 6.5; 3.0].
Proof. do 3 eexists. repeat split; vm_compute; reflexivity. Qed.

(** Why the environmental score needs the typing of [public_reporting]: the
    engine looks for "recyclable" in the text of the whole product, and
    [True] replaces whatever text stood in the attribute. *)
Example text_flag_overwritten :
  exists r r',
    score_ethical_factors text_flag_product [] None = Ok r /\
    score_ethical_factors (set_public_reporting text_flag_product) [] None
    = Ok r' /\
    map snd (component_scores r) = [5.5; 5.0; 5.0; 6.5; 0.0] /\
    map snd (component_scores r') = [5.0; 5.0; 5.0; 6.5; 0.0].
Proof. do 2 eexists. repeat split; vm_compute; reflexivity. Qed.

End Monotonicity.

(** ** The values quiz *)

Module QuizTheorems.
Import Py Quiz QuizSpec ScoringFacts.

Section Responses.

Variable int_of_str : string -> option Z.

Lemma accepted_in_scale (response : string) (z : Z) :
  accepted int_of_str response = Some z -> in_scale z.
Proof.
  unfold accepted, in_scale.
  destruct (int_of_str response) as [score |]; [| discriminate].
  destruct (andb _ _) eqn:E; [| discriminate].
  intros [= <-]. apply andb_true_iff in E. lia.
Qed.

(** One question: the loop returns the first acceptable response and leaves
    the responses after it; it ends in [EOFError] when there is none. *)
Lemma ask_first_accepted (stdin : list string) :
  match accepted_scores int_of_str stdin with
  | [] => ask int_of_str stdin = Raise EOFError
  | z :: later =>
      exists rest,
        ask int_of_str stdin = Ok (z, rest) /\
        accepted_scores int_of_str rest = later
  end.
Proof.
  induction stdin as [| response rest IH]; simpl; [reflexivity |].
  unfold accepted.
  destruct (int_of_str response) as [score |]; [| exact IH].
  destruct (andb _ _); [| exact IH].
  exists rest. split; reflexivity.
Qed.

Lemma ask_ok (stdin rest : list string) (z : Z) :
  ask int_of_str stdin = Ok (z, rest) ->
  in_scale z /\
  accepted_scores int_of_str stdin = z :: accepted_scores int_of_str rest.
Proof.
  intros H. pose proof (ask_first_accepted stdin) as Hs.
  destruct (accepted_scores int_of_str stdin) as [| z' later] eqn:E.
  - rewrite H in Hs. discriminate Hs.
  - destruct Hs as (rest' & Hask & Hlater). rewrite H in Hask.
    injection Hask as -> ->. split; [| now rewrite Hlater].
    clear - E. induction stdin as [| response t IH]; simpl in E; [discriminate |].
    destruct (accepted int_of_str response) as [score |] eqn:Ea.
    + injection E as -> _. exact (accepted_in_scale _ _ Ea).
    + exact (IH E).
Qed.

(** The five questions: the profile holds the first five acceptable
    responses, in the order of the questions. *)
Lemma ask_all_questions (stdin rest : list string) (values : list (string * Z)) :
  ask_all int_of_str questions [] stdin = Ok (values, rest) ->
  exists e l s a t,
    firstn 5 (accepted_scores int_of_str stdin) = [e; l; s; a; t] /\
    Forall in_scale [e; l; s; a; t] /\
    accepted_scores int_of_str stdin
    = ([e; l; s; a; t] ++ accepted_scores int_of_str rest)%list /\
    values = [ ("environmental_importance", e);
               ("labor_practices_importance", l);
               ("local_sourcing_preference", s);
               ("animal_welfare_importance", a);
               ("transparency_importance", t) ].
Proof.
  unfold questions. cbn [ask_all]. intros H.
  invert_bind H. destruct a as [e r1]. apply ask_ok in E as [He E1].
  invert_bind H. destruct a as [l r2]. apply ask_ok in E as [Hl E2].
  invert_bind H. destruct a as [s r3]. apply ask_ok in E as [Hs E3].
  invert_bind H. destruct a as [a r4]. apply ask_ok in E as [Ha E4].
  invert_bind H. destruct a0 as [t r5]. apply ask_ok in E as [Ht E5].
  cbn in H. injection H as <- <-.
  exists e, l, s, a, t.
  cbn [fst snd] in *. rewrite E1, E2, E3, E4, E5.
  repeat split; auto.
  repeat (apply Forall_cons; [assumption |]). apply Forall_nil.
Qed.

Lemma ask_all_enough (stdin : list string) :
  (5 <= List.length (accepted_scores int_of_str stdin))%nat ->
  exists values rest, ask_all int_of_str questions [] stdin = Ok (values, rest).
Proof.
  intros Hlen. unfold questions. cbn [ask_all].
  pose proof (ask_first_accepted stdin) as H1.
  destruct (accepted_scores int_of_str stdin) as [| e l1]; [simpl in Hlen; lia |].
  destruct H1 as (r1 & -> & <-). cbn [bind fst snd].
  pose proof (ask_first_accepted r1) as H2.
  destruct (accepted_scores int_of_str r1) as [| l l2]; [simpl in Hlen; lia |].
  destruct H2 as (r2 & -> & <-). cbn [bind fst snd].
  pose proof (ask_first_accepted r2) as H3.
  destruct (accepted_scores int_of_str r2) as [| s l3]; [simpl in Hlen; lia |].
  destruct H3 as (r3 & -> & <-). cbn [bind fst snd].
  pose proof (ask_first_accepted r3) as H4.
  destruct (accepted_scores int_of_str r3) as [| a l4]; [simpl in Hlen; lia |].
  destruct H4 as (r4 & -> & <-). cbn [bind fst snd].
  pose proof (ask_first_accepted r4) as H5.
  destruct (accepted_scores int_of_str r4) as [| t l5]; [simpl in Hlen; lia |].
  destruct H5 as (r5 & -> & <-). cbn [bind fst snd].
  eauto.
Qed.

Lemma operon_values (interactive : bool) (stdin rest : list string)
    (a : Assessment) :
  Quiz.assess_ethical_values int_of_str interactive stdin = Ok (a, rest) ->
  (if interactive
   then ask_all int_of_str questions [] stdin = Ok (values a, rest)
   else values a = default_all questions []).
Proof.
  unfold Quiz.assess_ethical_values. intros H.
  invert_bind H. invert_bind H. injection H as <- <-. cbn [values].
  destruct interactive; [| now injection E as <-].
  rewrite E. now destruct a0.
Qed.

End Responses.

(** The quiz on [example_answers]: "7", "many" and "0" are passed over. *)
Example quiz_example :
  exists a,
    Quiz.assess_ethical_values decimal true example_answers = Ok (a, []) /\
    map snd (values a) = [4; 5; 3; 2; 4]%Z /\
    summary a
    = "Top priorities: environmental sustainability, fair labor practices, supply chain transparency".
Proof. eexists. repeat split; vm_compute; reflexivity. Qed.

End QuizTheorems.

(** ** The agent *)

Module AgentTheorems.
Import Py Agent AgentSpec QuizSpec ScoringFacts QuizTheorems.

Section Collaborators.

Variable EncryptedPayload : Type.
Variable validate_token :
  string -> ConsentScope -> bool * string * option HushhConsentToken.
Variable encrypt_data : string -> string -> EncryptedPayload.
Variable VAULT_ENCRYPTION_KEY : string.
Variable json_dumps : PyVal -> string.
Variable int_of_str : string -> option Z.

(** *** The gate *)

Lemma check_denied (user token_str key reason : string) (s : ConsentScope)
    (tok : option HushhConsentToken) :
  required_scope key = Ok s ->
  validate_token token_str s = (false, reason, tok) ->
  check_consent validate_token user token_str key
  = Raise (PermissionError (consent_message reason)).
Proof.
  intros Hk Hv. unfold check_consent. rewrite Hk. cbn [bind].
  now rewrite Hv.
Qed.

Lemma check_mismatch (user token_str key reason : string) (s : ConsentScope)
    (t : HushhConsentToken) :
  required_scope key = Ok s ->
  validate_token token_str s = (true, reason, Some t) ->
  user_id t <> user ->
  check_consent validate_token user token_str key
  = Raise (PermissionError mismatch_message).
Proof.
  intros Hk Hv Hu. unfold check_consent. rewrite Hk. cbn [bind].
  rewrite Hv. cbn [negb].
  destruct (String.eqb_spec (user_id t) user); [contradiction | reflexivity].
Qed.

(** A failed validation stops each of the five entry points with
    [PermissionError], the collaborator's reason inside the message. *)
Lemma run_denied (op : Operation) (user token_str reason : string)
    (tok : option HushhConsentToken) :
  validate_token token_str (scope_of op) = (false, reason, tok) ->
  run EncryptedPayload validate_token encrypt_data VAULT_ENCRYPTION_KEY
      json_dumps int_of_str op user token_str
  = Raise (PermissionError (consent_message reason)).
Proof.
  intros Hv. destruct op; cbn [run scope_of] in *.
  - unfold assess_ethical_values.
    now rewrite (check_denied user token_str "values_access" _ _ _ eq_refl Hv).
  - unfold analyze_purchase_history.
    now rewrite (check_denied user token_str "email_access" _ _ _ eq_refl Hv).
  - unfold search_ethical_products.
    now rewrite (check_denied user token_str "shopping_access" _ _ _ eq_refl Hv).
  - unfold trace_supply_chain.
    now rewrite (check_denied user token_str "supply_chain" _ _ _ eq_refl Hv).
  - unfold generate_report. cbn. now rewrite Hv.
Qed.

(** A valid token of another subject stops the four entry points that
    compare the subject. *)
Lemma run_mismatch (op : Operation) (user token_str reason : string)
    (t : HushhConsentToken) :
  checks_identity op = true ->
  validate_token token_str (scope_of op) = (true, reason, Some t) ->
  user_id t <> user ->
  run EncryptedPayload validate_token encrypt_data VAULT_ENCRYPTION_KEY
      json_dumps int_of_str op user token_str
  = Raise (PermissionError mismatch_message).
Proof.
  intros Hop Hv Hu. destruct op; try discriminate Hop; cbn [run scope_of] in *.
  - unfold assess_ethical_values.
    now rewrite (check_mismatch user token_str "values_access" _ _ _ eq_refl Hv Hu).
  - unfold analyze_purchase_history.
    now rewrite (check_mismatch user token_str "email_access" _ _ _ eq_refl Hv Hu).
  - unfold search_ethical_products.
    now rewrite (check_mismatch user token_str "shopping_access" _ _ _ eq_refl Hv Hu).
  - unfold trace_supply_chain.
    now rewrite (check_mismatch user token_str "supply_chain" _ _ _ eq_refl Hv Hu).
Qed.

(** [generate_report] returns for every valid token, whoever it names. *)
Lemma report_any_subject (user token_str reason : string)
    (tok : option HushhConsentToken) :
  validate_token token_str VAULT_READ_EMAIL = (true, reason, tok) ->
  generate_report EncryptedPayload validate_token user token_str
  = Ok [ ("status", Val (PyStr "success"));
         ("report", Val (mock_report user)) ].
Proof.
  intros Hv. unfold generate_report. cbn. now rewrite Hv.
Qed.

Lemma messages_differ (reason : string) :
  consent_message reason <> mismatch_message.
Proof. unfold consent_message, mismatch_message. simpl. discriminate. Qed.

(** C2, as far as the code goes.  A failed validation surfaces as
    [PermissionError] whose message is "Consent validation failed: "
    followed by the collaborator's reason, at each of the five entry points;
    a subject mismatch surfaces as [PermissionError] with the message
    "Token user ID does not match provided user", at each entry point that
    compares the subject.  The two failures have the same class and differ
    in their message, for every reason. *)
Theorem consent_failures_are_permission_errors (op : Operation)
    (user token_str reason : string) (valid : bool)
    (tok : option HushhConsentToken) :
  validate_token token_str (scope_of op) = (valid, reason, tok) ->
  (valid = false ->
     run EncryptedPayload validate_token encrypt_data VAULT_ENCRYPTION_KEY
         json_dumps int_of_str op user token_str
     = Raise (PermissionError (consent_message reason))) /\
  (valid = true -> checks_identity op = true ->
     forall t, tok = Some t -> user_id t <> user ->
     run EncryptedPayload validate_token encrypt_data VAULT_ENCRYPTION_KEY
         json_dumps int_of_str op user token_str
     = Raise (PermissionError mismatch_message)) /\
  consent_message reason <> mismatch_message /\
  exn_class (PermissionError (consent_message reason))
  = exn_class (PermissionError mismatch_message).
Proof.
  intros Hv. split; [| split; [| split]].
  - intros ->. exact (run_denied op user token_str reason tok Hv).
  - intros -> Hop t -> Hu. exact (run_mismatch op user token_str reason t Hop Hv Hu).
  - apply messages_differ.
  - reflexivity.
Qed.

(** *** The quiz behind the gate *)

Lemma agent_values (user token_str : string) (stdin rest : list string)
    (resp : Response EncryptedPayload) :
  assess_ethical_values EncryptedPayload validate_token encrypt_data
    VAULT_ENCRYPTION_KEY json_dumps int_of_str user token_str stdin
  = Ok (resp, rest) ->
  exists values ev,
    Quiz.ask_all int_of_str Quiz.questions [] stdin = Ok (values, rest) /\
    ethical_values_of values = Ok ev /\
    resp = [ ("status", Val (PyStr "success"));
             ("message", Val (PyStr "Ethical values assessment completed"));
             ("encrypted_data",
              Sealed (encrypt_data (json_dumps (values_dict values))
                        VAULT_ENCRYPTION_KEY));
             ("summary", Val (PyStr (generate_values_summary ev))) ].
Proof.
  unfold assess_ethical_values. intros H.
  invert_bind H. invert_bind H. invert_bind H. injection H as <- <-.
  destruct a0 as [values rest']. cbn [fst snd] in *. eauto.
Qed.

(** C9.  Whatever [int] makes of a response, the profile captured by the
    quiz, in the operon and in the agent alike, holds the first five
    responses that parse to a number between 1 and 5, in the order of the
    questions: a response off the scale or not a number is passed over and
    the question is asked again, no value is clamped, so every captured
    value lies in [1,5].  (The operon run without prompts sets every value
    to 3.)  The quiz returns as soon as five responses are acceptable. *)
Theorem captured_values_in_scale (stdin : list string) :
  (forall interactive a rest,
     Quiz.assess_ethical_values int_of_str interactive stdin = Ok (a, rest) ->
     Forall (fun kv => in_scale (snd kv)) (Quiz.values a) /\
     (interactive = true ->
      map snd (Quiz.values a) = firstn 5 (accepted_scores int_of_str stdin))) /\
  (forall user token_str resp rest,
     assess_ethical_values EncryptedPayload validate_token encrypt_data
       VAULT_ENCRYPTION_KEY json_dumps int_of_str user token_str stdin
     = Ok (resp, rest) ->
     exists values,
       Forall (fun kv => in_scale (snd kv)) values /\
       map snd values = firstn 5 (accepted_scores int_of_str stdin) /\
       get "encrypted_data" resp
       = Some (Sealed (encrypt_data (json_dumps (values_dict values))
                         VAULT_ENCRYPTION_KEY))) /\
  ((5 <= List.length (accepted_scores int_of_str stdin))%nat ->
   exists a rest,
     Quiz.assess_ethical_values int_of_str true stdin = Ok (a, rest)).
Proof.
  assert (Hloop : forall values rest,
            Quiz.ask_all int_of_str Quiz.questions [] stdin = Ok (values, rest) ->
            Forall (fun kv => in_scale (snd kv)) values /\
            map snd values = firstn 5 (accepted_scores int_of_str stdin)).
  { intros values rest H.
    destruct (ask_all_questions int_of_str stdin rest values H)
      as (e & l & s & a & t & Hfirst & Hall & _ & ->).
    rewrite Hfirst. split; [| reflexivity].
    inversion Hall as [| ? ? He H1]; subst.
    inversion H1 as [| ? ? Hl H2]; subst.
    inversion H2 as [| ? ? Hs H3]; subst.
    inversion H3 as [| ? ? Ha H4]; subst.
    inversion H4 as [| ? ? Ht _]; subst.
    repeat (apply Forall_cons; [assumption |]). apply Forall_nil. }
  split; [| split].
  - intros interactive a rest H.
    apply operon_values in H. destruct interactive.
    + destruct (Hloop _ _ H) as [Hall Hmap]. split; [exact Hall | now intros _].
    + rewrite H. split; [| discriminate].
      repeat (apply Forall_cons; [unfold in_scale; simpl; lia |]).
      apply Forall_nil.
  - intros user token_str resp rest H.
    destruct (agent_values _ _ _ _ _ H) as (values & ev & Hask & _ & ->).
    destruct (Hloop _ _ Hask) as [Hall Hmap].
    exists values. repeat split; assumption || reflexivity.
  - intros Hlen.
    destruct (ask_all_enough int_of_str stdin Hlen) as (values & rest & Hask).
    unfold Quiz.assess_ethical_values. rewrite Hask. cbn [bind fst snd].
    destruct (ask_all_questions int_of_str stdin rest values Hask)
      as (e & l & s & a & t & _ & _ & _ & ->).
    cbn. eauto.
Qed.

End Collaborators.

(** The quiz on [example_answers], in the operon and behind the gate of the
    agent. *)
Lemma captured_values_in_scale_witness :
  (exists a,
     Quiz.assess_ethical_values decimal true example_answers = Ok (a, []) /\
     Forall (fun kv => in_scale (snd kv)) (Quiz.values a) /\
     map snd (Quiz.values a) = [4; 5; 3; 2; 4]%Z) /\
  (exists resp values,
     assess_ethical_values string (accept_as "u1") seal_plain "key" dumps_repr
       decimal "u1" "tok" example_answers
     = Ok (resp, []) /\
     Forall (fun kv => in_scale (snd kv)) values /\
     get "encrypted_data" resp
     = Some (Sealed (seal_plain (dumps_repr (values_dict values)) "key"))).
Proof.
  pose proof (captured_values_in_scale string (accept_as "u1") seal_plain
                "key" dumps_repr decimal example_answers)
    as (Hoperon & Hagent & _).
  split.
  - eexists.
    match goal with
    | |- Quiz.assess_ethical_values ?p ?i ?s = Ok (?a, ?rest) /\ _ =>
        assert (H : Quiz.assess_ethical_values p i s = Ok (a, rest))
          by (vm_compute; reflexivity);
        destruct (Hoperon i a rest H) as [Hall Hmap]
    end.
    split; [exact H |]. split; [exact Hall |].
    rewrite (Hmap eq_refl). reflexivity.
  - eexists.
    match goal with
    | |- exists values, assess_ethical_values _ _ _ _ _ _ ?u ?t ?s
                        = Ok (?resp, ?rest) /\ _ =>
        assert (H : assess_ethical_values string (accept_as "u1") seal_plain
                      "key" dumps_repr decimal u t s = Ok (resp, rest))
          by (vm_compute; reflexivity);
        destruct (Hagent u t resp rest H) as (values & Hall & _ & Hsealed)
    end.
    exists values. split; [exact H |]. split; [exact Hall | exact Hsealed].
Defined.

(** C2 as stated fails: a rejected token and a valid token of another
    subject both end [analyze_purchase_history] with an exception of the one
    class [PermissionError]. *)
Lemma consent_and_identity_failures_share_class :
  exists e1 e2,
    run string (reject_with "Token has been revoked") seal_plain "key"
        dumps_repr decimal (AnalyzeHistory "last_6_months") "u1" "tok"
    = Raise e1 /\
    run string (accept_as "u2") seal_plain "key"
        dumps_repr decimal (AnalyzeHistory "last_6_months") "u1" "tok"
    = Raise e2 /\
    exn_class e1 = exn_class e2 /\
    exn_class e1 = "PermissionError".
Proof.
  exists (PermissionError (consent_message "Token has been revoked")),
         (PermissionError mismatch_message).
  repeat split; reflexivity.
Qed.

(** Both failures at [trace_supply_chain]. *)
Lemma consent_failures_are_permission_errors_witness :
  run string (reject_with "Token has been revoked") seal_plain "key"
      dumps_repr decimal (TraceSupplyChain "https://example.com/product/123")
      "u1" "tok"
  = Raise (PermissionError "Consent validation failed: Token has been revoked") /\
  run string (accept_as "u2") seal_plain "key"
      dumps_repr decimal (TraceSupplyChain "https://example.com/product/123")
      "u1" "tok"
  = Raise (PermissionError "Token user ID does not match provided user").
Proof.
  split.
  - refine (proj1 (consent_failures_are_permission_errors string
                     (reject_with "Token has been revoked") seal_plain "key"
                     dumps_repr decimal
                     (TraceSupplyChain "https://example.com/product/123")
                     "u1" "tok" "Token has been revoked" false None eq_refl)
                  eq_refl).
  - refine (proj1 (proj2 (consent_failures_are_permission_errors string
                     (accept_as "u2") seal_plain "key" dumps_repr decimal
                     (TraceSupplyChain "https://example.com/product/123")
                     "u1" "tok" "" true _ eq_refl))
                  eq_refl eq_refl _ eq_refl _).
    simpl. discriminate.
Defined.

(** C1 at [generate_report]: a token that validates for the scope and
    decodes to subject "u1" gets the caller who claims to be "u2" a success
    result, the report made out to "u2"; the same call of
    [analyze_purchase_history], which asks for the same scope, is refused. *)
Lemma generate_report_skips_identity_check :
  succeeded string
    (run string (accept_as "u1") seal_plain "key" dumps_repr decimal
         GenerateReport "u2" "tok") /\
  generate_report string (accept_as "u1") "u2" "tok"
  = Ok [ ("status", Val (PyStr "success"));
         ("report", Val (mock_report "u2")) ] /\
  run string (accept_as "u1") seal_plain "key" dumps_repr decimal
      (AnalyzeHistory "last_6_months") "u2" "tok"
  = Raise (PermissionError mismatch_message).
Proof.
  split; [| split]; try reflexivity.
  eexists. split; reflexivity.
Qed.

(** At the four entry points that compare the subject, a token of another
    subject never yields a result. *)
Lemma identity_check_enforced (EncryptedPayload : Type)
    (validate_token :
       string -> ConsentScope -> bool * string * option HushhConsentToken)
    (encrypt_data : string -> string -> EncryptedPayload)
    (key : string) (json_dumps : PyVal -> string)
    (int_of_str : string -> option Z)
    (op : Operation) (user token_str reason : string)
    (t : HushhConsentToken) :
  checks_identity op = true ->
  validate_token token_str (scope_of op) = (true, reason, Some t) ->
  user_id t <> user ->
  ~ succeeded EncryptedPayload
      (run EncryptedPayload validate_token encrypt_data key json_dumps
           int_of_str op user token_str).
Proof.
  intros Hop Hv Hu (fields & E & _).
  rewrite (run_mismatch _ validate_token encrypt_data key json_dumps int_of_str
             op user token_str reason t Hop Hv Hu) in E.
  discriminate E.
Qed.

End AgentTheorems.

(** ** Further properties of the scoring engine *)

Module ScoringExtras.
Import Py Scoring ScoringSpec ExtraSpec PyFacts StringFacts ScoringFacts.

Open Scope Q_scope.

(** *** Whole and half points *)

Lemma round1_exact (x : Q) : half_integral x -> round1 x == x.
Proof.
  intros [z Hz].
  assert (Hn : x * 10 == inject_Z (5 * z)).
  { rewrite Hz. unfold Qeq, inject_Z. cbn [Qnum Qden Qmult]. lia. }
  assert (Hf : Qfloor (x * 10) = (5 * z)%Z).
  { rewrite (Qfloor_comp _ _ Hn). apply Qfloor_Z. }
  assert (Ex : x == (5 * z) # 10).
  { rewrite Hz. unfold Qeq. cbn [Qnum Qden]. lia. }
  destruct (round1_spec x) as [[_ E] | [[Hd _] | [Hd _]]].
  - rewrite E, Hf. symmetry. exact Ex.
  - rewrite Hf in Hd. lra.
  - rewrite Hf in Hd. lra.
Qed.

Ltac closed_half :=
  match goal with
  | |- half_integral ?x => exists (Qfloor (x * 2)); vm_compute; reflexivity
  end.

Lemma env_score_half (certs : list string) (ei : PyVal) (pd : dict) :
  half_integral (env_score certs ei pd).
Proof. unfold env_score. bonus_cases; closed_half. Qed.

Lemma labor_score_half (certs : list string) (lp : PyVal) :
  half_integral (labor_score certs lp).
Proof. unfold labor_score. bonus_cases; closed_half. Qed.

Lemma trans_score_half (certs : list string) (pr : PyVal) :
  half_integral (trans_score certs pr).
Proof. unfold trans_score. bonus_cases; closed_half. Qed.

Lemma cert_score_half (certs : list string) : half_integral (cert_score certs).
Proof.
  unfold cert_score, min.
  destruct (Qlt_le_dec 10.0 _) as [_ | _].
  - exists 20%Z. reflexivity.
  - exists (3 * Z.of_nat (List.length certs))%Z.
    unfold Qeq, inject_Z. cbn [Qnum Qden Qmult]. lia.
Qed.

(** What a successful call reports under each factor name. *)
Lemma reported (pd : dict) (uv : list (string * Z))
    (w : option (list (string * Q))) (r : ScoreResult) :
  score_ethical_factors pd uv w = Ok r ->
  exists certs c overall,
    as_str_list (get_default "certifications" (PyList []) pd) = Ok certs /\
    compute_components certs pd = Ok c /\
    weighted_overall (scores_dict c) (weights_or_default w) = Ok overall /\
    r = assemble certs c overall uv /\
    half_integral (environmental c) /\ 5 <= environmental c <= 10 /\
    half_integral (labor c) /\ 5 <= labor c <= 10 /\
    half_integral (transparency c) /\ 5 <= transparency c <= 10 /\
    certifications c = cert_score certs /\
    forall k x, component r k x ->
      In k factor_names /\ x = round1 (score_at c k).
Proof.
  intros H.
  destruct (score_inv _ _ _ _ H) as (certs & c & overall & Hc & Hcomp & Hw & Hr).
  exists certs, c, overall.
  destruct (components_inv _ _ _ Hcomp)
    as (origin & sc & t & n & _ & _ & _ & _ & Ec).
  repeat (split; [assumption |]).
  subst c. cbn [environmental labor transparency certifications].
  split; [apply env_score_half |]. split; [apply env_score_range |].
  split; [apply labor_score_half |]. split; [apply labor_score_range |].
  split; [apply trans_score_half |]. split; [apply trans_score_range |].
  split; [reflexivity |].
  intros k x Hx. subst r. apply component_cases in Hx.
  unfold factor_names.
  destruct Hx as [[-> ->] | [[-> ->] | [[-> ->] | [[-> ->] | [-> ->]]]]];
    (split; [simpl; tauto | reflexivity]).
Qed.

(** X1.  The environmental, labor, transparency and certifications scores a
    call reports are whole or half points: rounding to one decimal changes
    none of them. *)
Theorem four_scores_in_half_points (pd : dict) (uv : list (string * Z))
    (w : option (list (string * Q))) (r : ScoreResult) (k : string) (x : Q) :
  score_ethical_factors pd uv w = Ok r ->
  component r k x ->
  k <> "supply_chain" ->
  half_integral x.
Proof.
  intros H Hx Hk.
  destruct (reported _ _ _ _ H)
    as (certs & c & overall & _ & _ & _ & _ & He & _ & Hl & _ & Ht & _ & Hce & Hrep).
  destruct (Hrep k x Hx) as [Hin ->].
  assert (Hs : half_integral (score_at c k)).
  { unfold factor_names in Hin.
    destruct Hin as [<- | [<- | [<- | [<- | [<- | []]]]]];
      unfold score_at, get_default; cbn [get String.eqb Ascii.eqb Bool.eqb scores_dict];
      try assumption; [now contradiction Hk | rewrite Hce; apply cert_score_half]. }
  destruct Hs as [z Hz]. exists z.
  rewrite round1_exact; [exact Hz | now exists z].
Qed.

Lemma four_scores_in_half_points_witness :
  exists r x,
    score_ethical_factors test_product_a test_values_a None = Ok r /\
    component r "environmental" x /\
    half_integral x.
Proof.
  eexists.
  match goal with
  | |- exists x, score_ethical_factors ?pd ?uv ?w = Ok ?r /\ _ =>
      assert (H : score_ethical_factors pd uv w = Ok r)
        by (vm_compute; reflexivity)
  end.
  exists (65 # 10). split; [exact H |].
  match goal with
  | |- component ?r ?k ?x /\ _ =>
      assert (Hx : component r k x) by (unfold component; simpl; tauto)
  end.
  split; [exact Hx |].
  apply (four_scores_in_half_points _ _ _ _ _ _ H Hx). discriminate.
Defined.

(** *** The alignment tag *)

Lemma important_dec (key : string) (uv : list (string * Z)) :
  (4 <=? importance key uv)%Z = true <-> important key uv.
Proof. unfold important. apply Z.leb_le. Qed.

Lemma round1_above_five (x : Q) :
  half_integral x -> (5 < round1 x <-> 5 < x).
Proof. intros Hx. now rewrite (round1_exact x Hx). Qed.

(** X2.  The alignment tag is "high" exactly when the user rates at least
    two of the environmental, labor and transparency factors at 4 or above,
    whatever the product is, or rates one of them so and the product scores
    above the baseline 5.0 on it; in every other case it is "moderate". *)
Theorem alignment_by_priorities (pd : dict) (uv : list (string * Z))
    (w : option (list (string * Q))) (r : ScoreResult) (e l t : Q) :
  score_ethical_factors pd uv w = Ok r ->
  component r "environmental" e ->
  component r "labor" l ->
  component r "transparency" t ->
  let ie := important "environmental_importance" uv in
  let il := important "labor_practices_importance" uv in
  let it := important "transparency_importance" uv in
  (user_alignment r = "high" <->
     (ie /\ il) \/ (ie /\ it) \/ (il /\ it) \/
     (ie /\ 5 < e) \/ (il /\ 5 < l) \/ (it /\ 5 < t)) /\
  (user_alignment r = "high" \/ user_alignment r = "moderate").
Proof.
  intros H Hxe Hxl Hxt ie il it.
  destruct (reported _ _ _ _ H)
    as (certs & c & overall & _ & _ & _ & Hr & He & Re & Hl & Rl & Ht & Rt & _ & Hrep).
  destruct (Hrep _ _ Hxe) as [_ Ee]. destruct (Hrep _ _ Hxl) as [_ El].
  destruct (Hrep _ _ Hxt) as [_ Et].
  change (score_at c "environmental") with (environmental c) in Ee.
  change (score_at c "labor") with (labor c) in El.
  change (score_at c "transparency") with (transparency c) in Et.
  subst e l t.
  rewrite !round1_above_five by assumption.
  subst r. cbn [assemble user_alignment].
  unfold ie, il, it. rewrite <- !important_dec.
  unfold user_weight_multiplier.
  destruct (4 <=? importance "environmental_importance" uv)%Z;
    destruct (4 <=? importance "labor_practices_importance" uv)%Z;
    destruct (4 <=? importance "transparency_importance" uv)%Z;
    match goal with
    | |- context [Qlt_le_dec ?a ?b] => destruct (Qlt_le_dec a b) as [Hm | Hm]
    end;
    (split; [| tauto]);
    (split;
     [ intros E; first [ discriminate E | tauto | (exfalso; qlinear)
                       | (right; right; right; left; split; [reflexivity | qlinear])
                       | (right; right; right; right; left; split; [reflexivity | qlinear])
                       | (right; right; right; right; right; split; [reflexivity | qlinear]) ]
     | intros E; first [ reflexivity | exfalso;
         repeat match goal with
                | H : _ \/ _ |- _ => destruct H
                | H : _ /\ _ |- _ => destruct H
                end; first [ discriminate | qlinear ] ] ]).
Qed.

Lemma alignment_by_priorities_witness :
  exists r,
    score_ethical_factors shouting_product two_priorities None = Ok r /\
    user_alignment r = "high".
Proof.
  eexists.
  match goal with
  | |- score_ethical_factors ?pd ?uv ?w = Ok ?r /\ _ =>
      assert (H : score_ethical_factors pd uv w = Ok r)
        by (vm_compute; reflexivity)
  end.
  split; [exact H |].
  refine (proj2 (proj1 (alignment_by_priorities _ _ _ _ (70 # 10) (70 # 10)
                          (60 # 10) H _ _ _)) _).
  - unfold component. simpl. tauto.
  - unfold component. simpl. tauto.
  - unfold component. simpl. tauto.
  - right; right; left. unfold important, importance, get_default. simpl. lia.
Defined.

(** *** Strengths and concerns *)

Lemma concern_text_names (k : string) (x : Q) :
  In k factor_names ->
  (concern_text (k, x) = "Limited supply chain information" -> k = "supply_chain") /\
  (concern_text (k, x) = "Limited certifications information" ->
   k = "certifications").
Proof.
  unfold factor_names.
  intros [<- | [<- | [<- | [<- | [<- | []]]]]];
    split; intros E; try reflexivity; vm_compute in E; discriminate E.
Qed.

Lemma strength_text_names (k : string) (x : Q) :
  In k factor_names ->
  strength_text (k, x) = "Strong certifications practices" ->
  k = "certifications".
Proof.
  unfold factor_names.
  intros [<- | [<- | [<- | [<- | [<- | []]]]]];
    intros E; try reflexivity; vm_compute in E; discriminate E.
Qed.

Lemma scores_dict_In (c : Components) (k : string) (x : Q) :
  In (k, x) (scores_dict c) -> In k factor_names /\ x = score_at c k.
Proof.
  unfold scores_dict, factor_names. simpl.
  intros [[= <- <-] | [[= <- <-] | [[= <- <-] | [[= <- <-] | [[= <- <-] | []]]]]];
    (split; [tauto | reflexivity]).
Qed.

Lemma not_concern_from_five (k : string) (x : Q) :
  5 <= x -> is_concern (k, x) = false.
Proof.
  intros Hx. unfold is_concern. cbn [snd].
  destruct (Qle_bool x 4.0) eqn:E; [| now rewrite andb_false_r].
  apply Qle_bool_iff in E. lra.
Qed.

Lemma cert_score_low (certs : list string) :
  cert_score certs <= 4.0 <-> (List.length certs < 3)%nat.
Proof.
  unfold cert_score, min.
  assert (Hn : forall z : Z, (z <= Z.of_nat (List.length certs))%Z ->
                 inject_Z z <= inject_Z (Z.of_nat (List.length certs))).
  { intros z Hz. now rewrite <- Zle_Qle. }
  assert (Hm : forall z : Z, (Z.of_nat (List.length certs) <= z)%Z ->
                 inject_Z (Z.of_nat (List.length certs)) <= inject_Z z).
  { intros z Hz. now rewrite <- Zle_Qle. }
  destruct (Qlt_le_dec 10.0 _) as [Hbig | Hsmall]; split; intros H.
  - lra.
  - specialize (Hm 2%Z ltac:(lia)). change (inject_Z 2) with 2 in Hm. lra.
  - destruct (le_lt_dec 3 (List.length certs)) as [Hge | Hlt]; [| exact Hlt].
    specialize (Hn 3%Z ltac:(lia)). change (inject_Z 3) with 3 in Hn. lra.
  - specialize (Hm 2%Z ltac:(lia)). change (inject_Z 2) with 2 in Hm. lra.
Qed.

Lemma cert_score_high (certs : list string) :
  7.5 <= cert_score certs <-> (5 <= List.length certs)%nat.
Proof.
  unfold cert_score, min.
  assert (Hn : forall z : Z, (z <= Z.of_nat (List.length certs))%Z ->
                 inject_Z z <= inject_Z (Z.of_nat (List.length certs))).
  { intros z Hz. now rewrite <- Zle_Qle. }
  assert (Hm : forall z : Z, (Z.of_nat (List.length certs) <= z)%Z ->
                 inject_Z (Z.of_nat (List.length certs)) <= inject_Z z).
  { intros z Hz. now rewrite <- Zle_Qle. }
  destruct (Qlt_le_dec 10.0 _) as [Hbig | Hsmall]; split; intros H.
  - destruct (le_lt_dec 5 (List.length certs)) as [Hge | Hlt]; [exact Hge |].
    specialize (Hm 4%Z ltac:(lia)). change (inject_Z 4) with 4 in Hm. lra.
  - lra.
  - destruct (le_lt_dec 5 (List.length certs)) as [Hge | Hlt]; [exact Hge |].
    specialize (Hm 4%Z ltac:(lia)). change (inject_Z 4) with 4 in Hm. lra.
  - specialize (Hn 5%Z ltac:(lia)). change (inject_Z 5) with 5 in Hn. lra.
Qed.

(** X3.  The only concerns the engine ever voices are about the supply
    chain and the certifications: the environmental, labor and transparency
    scores start at 5.0 and cannot reach the threshold 4.0.  The
    certifications concern is voiced exactly when the product lists fewer
    than three certifications, and the certifications strength exactly when
    it lists five or more. *)
Theorem concerns_voiced (pd : dict) (uv : list (string * Z))
    (w : option (list (string * Q))) (r : ScoreResult) :
  score_ethical_factors pd uv w = Ok r ->
  (forall text, In text (concerns r) ->
     text = "Limited supply chain information" \/
     text = "Limited certifications information") /\
  (In "Limited certifications information" (concerns r) <->
   (List.length (certifications_found r) < 3)%nat) /\
  (In "Strong certifications practices" (strengths r) <->
   (5 <= List.length (certifications_found r))%nat).
Proof.
  intros H.
  destruct (reported _ _ _ _ H)
    as (certs & c & overall & _ & _ & _ & -> & _ & Re & _ & Rl & _ & Rt & Hce & _).
  cbn [assemble concerns strengths certifications_found].
  split; [| split].
  - intros text Hin. apply in_map_iff in Hin as ([k x] & <- & Hkv).
    apply filter_In in Hkv as [Hkv Hcon].
    unfold scores_dict in Hkv. simpl in Hkv.
    destruct Hkv as [[= <- <-] | [[= <- <-] | [[= <- <-] | [[= <- <-] | [[= <- <-] | []]]]]];
      try (rewrite not_concern_from_five in Hcon by tauto; discriminate Hcon).
    + now left.
    + now right.
  - rewrite <- cert_score_low, <- Hce. split.
    + intros Hin. apply in_map_iff in Hin as ([k x] & Etext & Hkv).
      apply filter_In in Hkv as [Hkv Hcon].
      destruct (scores_dict_In _ _ _ Hkv) as [Hk ->].
      apply (concern_text_names k) in Etext; [| exact Hk]. subst k.
      unfold is_concern in Hcon. apply andb_true_iff in Hcon as [_ Hcon].
      now apply Qle_bool_iff in Hcon.
    + intros Hlow.
      change "Limited certifications information"
        with (concern_text ("certifications", certifications c)).
      apply in_map. apply filter_In. split.
      * unfold scores_dict. simpl. tauto.
      * unfold is_concern. cbn [snd]. apply andb_true_iff. split.
        -- destruct (Qle_bool 7.5 (certifications c)) eqn:E; [| reflexivity].
           apply Qle_bool_iff in E. lra.
        -- now apply Qle_bool_iff.
  - rewrite <- cert_score_high, <- Hce. split.
    + intros Hin. apply in_map_iff in Hin as ([k x] & Etext & Hkv).
      apply filter_In in Hkv as [Hkv Hstr].
      destruct (scores_dict_In _ _ _ Hkv) as [Hk ->].
      apply (strength_text_names k) in Etext; [| exact Hk]. subst k.
      now apply Qle_bool_iff in Hstr.
    + intros Hhigh.
      change "Strong certifications practices"
        with (strength_text ("certifications", certifications c)).
      apply in_map. apply filter_In. split.
      * unfold scores_dict. simpl. tauto.
      * now apply Qle_bool_iff.
Qed.

Lemma concerns_voiced_witness :
  exists r,
    score_ethical_factors test_product_b test_values_b None = Ok r /\
    In "Limited certifications information" (concerns r).
Proof.
  eexists.
  match goal with
  | |- score_ethical_factors ?pd ?uv ?w = Ok ?r /\ _ =>
      assert (H : score_ethical_factors pd uv w = Ok r)
        by (vm_compute; reflexivity)
  end.
  split; [exact H |].
  apply (proj1 (proj2 (concerns_voiced _ _ _ _ H))). simpl. lia.
Defined.

(** *** What the user values and the weights reach *)

Lemma importance_same (key : string) (uv uv' : list (string * Z)) :
  get key uv = get key uv' -> importance key uv = importance key uv'.
Proof. intros E. unfold importance, get_default. now rewrite E. Qed.

(** X4.  Of the user's preferences the engine reads the environmental,
    labor and transparency importances only: two profiles that agree on
    these three keys get the same answer, whatever they say about local
    sourcing or animal welfare.  Preferences and weights reach nothing but
    the overall score and the alignment tag: the component scores, the
    strengths, the concerns and the certifications found are the same for
    every profile and every choice of weights, and the alignment tag is the
    same for every choice of weights. *)
Theorem reach_of_values_and_weights (pd : dict) (uv uv' : list (string * Z))
    (w w' : option (list (string * Q))) :
  (same_priorities uv uv' ->
   score_ethical_factors pd uv w = score_ethical_factors pd uv' w) /\
  (forall r r',
     score_ethical_factors pd uv w = Ok r ->
     score_ethical_factors pd uv' w' = Ok r' ->
     component_scores r = component_scores r' /\
     strengths r = strengths r' /\
     concerns r = concerns r' /\
     certifications_found r = certifications_found r' /\
     (same_priorities uv uv' -> user_alignment r = user_alignment r')).
Proof.
  assert (Hm : same_priorities uv uv' ->
               forall c, user_weight_multiplier c uv = user_weight_multiplier c uv').
  { intros (He & Hl & Ht) c. unfold user_weight_multiplier.
    now rewrite (importance_same _ _ _ He), (importance_same _ _ _ Hl),
                (importance_same _ _ _ Ht). }
  split.
  - intros Hs. unfold score_ethical_factors.
    destruct (as_str_list _) as [certs |]; [cbn [bind] | reflexivity].
    destruct (compute_components certs pd) as [c |]; [cbn [bind] | reflexivity].
    destruct (weighted_overall _ _) as [overall |]; [cbn [bind] | reflexivity].
    unfold assemble. now rewrite (Hm Hs c).
  - intros r r' H H'.
    destruct (score_inv _ _ _ _ H) as (certs & c & overall & Hc & Hcomp & _ & ->).
    destruct (score_inv _ _ _ _ H')
      as (certs' & c' & overall' & Hc' & Hcomp' & _ & ->).
    rewrite Hc in Hc'. injection Hc' as <-.
    rewrite Hcomp in Hcomp'. injection Hcomp' as <-.
    cbn [assemble component_scores strengths concerns certifications_found
         user_alignment].
    repeat (split; [reflexivity |]).
    intros Hs. now rewrite (Hm Hs c).
Qed.

Lemma reach_of_values_and_weights_witness :
  score_ethical_factors test_product_a test_values_a None
  = score_ethical_factors test_product_a
      (("animal_welfare_importance", 1%Z) :: test_values_a) None.
Proof.
  apply (reach_of_values_and_weights test_product_a test_values_a
           (("animal_welfare_importance", 1%Z) :: test_values_a) None None).
  repeat split.
Defined.

(** *** Weights are taken as given *)






(** *** Certifications are matched whatever their case *)

Lemma get_default_other {V : Type} (k k' : string) (v def : V)
    (d : list (string * V)) :
  k' <> k -> get_default k' def (dict_set k v d) = get_default k' def d.
Proof. intros H. unfold get_default. now rewrite get_dict_set_other. Qed.

Lemma has_char_lower (q : ascii) (s : string) :
  q = squote \/ q = dquote ->
  has_char q (lower s) = has_char q s.
Proof.
  intros Hq. induction s as [| c s IH]; [reflexivity |].
  cbn [lower has_char]. rewrite IH. f_equal.
  destruct Hq as [-> | ->];
    destruct c as [[] [] [] [] [] [] [] []]; reflexivity.
Qed.

Lemma escape_char_lower (q c : ascii) :
  q = squote \/ q = dquote ->
  lower (escape_char q (lower_ascii c)) = lower (escape_char q c).
Proof.
  intros [-> | ->]; destruct c as [[] [] [] [] [] [] [] []]; reflexivity.
Qed.

Lemma escape_lower (q : ascii) (s : string) :
  q = squote \/ q = dquote ->
  lower (escape q (lower s)) = lower (escape q s).
Proof.
  intros Hq. induction s as [| c s IH]; [reflexivity |].
  cbn [lower escape]. rewrite !lower_app, IH.
  now rewrite escape_char_lower.
Qed.

Lemma repr_str_lower (s : string) :
  lower (repr_str (lower s)) = lower (repr_str s).
Proof.
  unfold repr_str.
  rewrite !has_char_lower by tauto.
  destruct (andb (has_char squote s) (negb (has_char dquote s)));
    cbn [lower]; rewrite !lower_app, escape_lower by tauto; reflexivity.
Qed.

Lemma lower_join (sep : string) (xs : list string) :
  lower (join sep xs) = join (lower sep) (map lower xs).
Proof.
  induction xs as [| x t IH]; [reflexivity |].
  destruct t as [| y t']; [reflexivity |].
  change (join sep (x :: y :: t')) with (x ++ sep ++ join sep (y :: t')).
  rewrite !lower_app, IH. reflexivity.
Qed.

Lemma lower_repr_names (cs cs' : list string) :
  map lower cs = map lower cs' ->
  lower (repr (PyList (map PyStr cs))) = lower (repr (PyList (map PyStr cs'))).
Proof.
  intros E.
  assert (Hm : forall l, map lower (map repr (map PyStr l))
                         = map (fun s => lower (repr_str s)) (map lower l)).
  { intros l. rewrite !map_map. apply map_ext. intros s. cbn [repr].
    symmetry. apply repr_str_lower. }
  cbn [repr]. rewrite !lower_app, !lower_join, !Hm, E. reflexivity.
Qed.

Lemma as_str_items_names (cs : list string) : as_str_items (map PyStr cs) = Ok cs.
Proof.
  induction cs as [| c t IH]; [reflexivity |].
  cbn [map as_str_items as_str bind]. now rewrite IH.
Qed.

Lemma with_certifications_text (cs cs' : list string) (pd : dict) :
  get "certifications" pd = Some (PyList (map PyStr cs)) ->
  map lower cs = map lower cs' ->
  lower (repr (PyDict (with_certifications cs' pd))) = lower (repr (PyDict pd)).
Proof.
  intros G E. unfold with_certifications.
  destruct (dict_set_present _ _ _ G) as (d1 & d2 & -> & Hset).
  rewrite Hset.
  destruct (repr_dict_around d1 d2 "certifications")
    as (before & ch & after & _ & Hr).
  rewrite !Hr, !lower_app. cbn [lower]. rewrite !lower_app.
  now rewrite (lower_repr_names cs cs' E).
Qed.

(** X6.  Certifications are matched without regard to letter case: when the
    certifications of a scored product are rewritten in another case, every
    score, the strengths, the concerns and the alignment tag stay as they
    were; only the list of certifications found follows the new
    spelling. *)
Theorem certification_case_ignored (pd : dict) (uv : list (string * Z))
    (w : option (list (string * Q))) (cs cs' : list string) (r : ScoreResult) :
  get "certifications" pd = Some (PyList (map PyStr cs)) ->
  map lower cs = map lower cs' ->
  score_ethical_factors pd uv w = Ok r ->
  exists r',
    score_ethical_factors (with_certifications cs' pd) uv w = Ok r' /\
    overall_score r' = overall_score r /\
    component_scores r' = component_scores r /\
    strengths r' = strengths r /\
    concerns r' = concerns r /\
    user_alignment r' = user_alignment r /\
    certifications_found r' = cs'.
Proof.
  intros G E H.
  destruct (score_inv _ _ _ _ H) as (certs & c & overall & Hc & Hcomp & Hw & ->).
  assert (Ecs : certs = cs).
  { unfold get_default in Hc. rewrite G in Hc. cbn [as_str_list] in Hc.
    rewrite as_str_items_names in Hc. now injection Hc. }
  subst certs.
  assert (Hlen : List.length cs' = List.length cs).
  { rewrite <- (length_map lower cs'), <- E. apply length_map. }
  assert (Hcomp' : compute_components cs' (with_certifications cs' pd) = Ok c).
  { rewrite <- Hcomp. unfold compute_components, with_certifications.
    rewrite !get_default_other by discriminate.
    unfold env_score, labor_score, trans_score, cert_score.
    rewrite <- E, Hlen.
    change (str (PyDict (dict_set "certifications" (PyList (map PyStr cs')) pd)))
      with (repr (PyDict (with_certifications cs' pd))).
    change (str (PyDict pd)) with (repr (PyDict pd)).
    now rewrite (with_certifications_text cs cs' pd G E). }
  exists (assemble cs' c overall uv). split.
  - unfold score_ethical_factors, with_certifications at 1.
    unfold get_default at 1. rewrite get_dict_set_same.
    cbn [as_str_list]. rewrite as_str_items_names. cbn [bind].
    rewrite Hcomp'. cbn [bind]. rewrite Hw. reflexivity.
  - repeat split.
Qed.

Lemma certification_case_ignored_witness :
  exists r r',
    score_ethical_factors shouting_product two_priorities None = Ok r /\
    score_ethical_factors
      (with_certifications quiet_certifications shouting_product)
      two_priorities None = Ok r' /\
    overall_score r' = overall_score r /\
    component_scores r' = component_scores r.
Proof.
  eexists.
  match goal with
  | |- exists r', score_ethical_factors ?pd ?uv ?w = Ok ?r /\ _ =>
      assert (H : score_ethical_factors pd uv w = Ok r)
        by (vm_compute; reflexivity);
      destruct (certification_case_ignored pd uv w
                  ["ORGANIC"; "Fair Trade"; "Recyclable"]
                  quiet_certifications r eq_refl eq_refl H)
        as (r' & H' & Ho & Hcs & _)
  end.
  exists r'. split; [exact H | split; [exact H' | split; [exact Ho | exact Hcs]]].
Defined.

(** *** Preferences only raise the score *)

Lemma components_ranges (pd : dict) (certs : list string) (c : Components) :
  transparency_nonneg pd ->
  compute_components certs pd = Ok c ->
  (5 <= environmental c /\ environmental c <= 10) /\
  (5 <= labor c /\ labor c <= 10) /\
  (5 <= transparency c /\ transparency c <= 10) /\
  0 <= supply_chain c /\ 0 <= certifications c.
Proof.
  intros Hnn Hcomp.
  destruct (components_inv _ _ _ Hcomp)
    as (origin & sc & t & n & Ho & Hsc & Ht & Hn & ->).
  cbn [environmental labor supply_chain transparency certifications].
  split; [apply env_score_range |]. split; [apply labor_score_range |].
  split; [apply trans_score_range |]. split; [| apply cert_score_range].
  apply supply_score_ge.
  unfold get_default in Hsc, Ht.
  destruct (get "supply_chain" pd) as [v |] eqn:Gsc.
  - destruct v; try discriminate Hsc. injection Hsc as ->.
    destruct (get "transparency_score" sc) as [v |] eqn:Gt.
    + exact (Hnn sc v t Gsc Gt Ht).
    + injection Ht as <-. unfold Qle. simpl. lia.
  - injection Hsc as <-. simpl in Ht. injection Ht as <-.
    unfold Qle. simpl. lia.
Qed.

Lemma weighted_overall_nonneg (c : Components) (weights : list (string * Q))
    (overall : Q) :
  Forall (fun kv => 0 <= snd kv) (scores_dict c) ->
  Forall (fun kv => 0 <= snd kv) weights ->
  weighted_overall (scores_dict c) weights = Ok overall ->
  0 <= overall.
Proof.
  intros Hs Hw H. unfold weighted_overall in H. invert_bind H.
  injection H as <-. apply sum_nonneg.
  exact (weighted_terms_nonneg _ _ _ _ Hs Hw E).
Qed.

Lemma multiplier_mono (c : Components) (uv uv' : list (string * Z)) :
  0 <= environmental c -> 0 <= labor c -> 0 <= transparency c ->
  (forall key, important key uv -> important key uv') ->
  user_weight_multiplier c uv <= user_weight_multiplier c uv'.
Proof.
  intros He Hl Ht H. unfold user_weight_multiplier.
  pose proof (H "environmental_importance") as H1.
  pose proof (H "labor_practices_importance") as H2.
  pose proof (H "transparency_importance") as H3.
  unfold important in H1, H2, H3.
  destruct (Z.leb_spec 4 (importance "environmental_importance" uv)),
           (Z.leb_spec 4 (importance "environmental_importance" uv'));
    try lia;
    destruct (Z.leb_spec 4 (importance "labor_practices_importance" uv)),
             (Z.leb_spec 4 (importance "labor_practices_importance" uv'));
    try lia;
    destruct (Z.leb_spec 4 (importance "transparency_importance" uv)),
             (Z.leb_spec 4 (importance "transparency_importance" uv'));
    try lia; qlinear.
Qed.

Lemma multiplier_range (c : Components) (uv : list (string * Z)) :
  0 <= environmental c <= 10 -> 0 <= labor c <= 10 ->
  0 <= transparency c <= 10 ->
  1 <= user_weight_multiplier c uv <= 1.3.
Proof.
  intros He Hl Ht. unfold user_weight_multiplier.
  repeat match goal with |- context [if ?b then _ else _] => destruct b end;
    split; qlinear.
Qed.

Lemma multiplier_plain (c : Components) (uv : list (string * Z)) :
  (forall key, ~ important key uv) -> user_weight_multiplier c uv = 1.0.
Proof.
  intros H. unfold user_weight_multiplier.
  pose proof (H "environmental_importance") as H1.
  pose proof (H "labor_practices_importance") as H2.
  pose proof (H "transparency_importance") as H3.
  unfold important in H1, H2, H3.
  destruct (Z.leb_spec 4 (importance "environmental_importance" uv));
    [lia |].
  destruct (Z.leb_spec 4 (importance "labor_practices_importance" uv));
    [lia |].
  destruct (Z.leb_spec 4 (importance "transparency_importance" uv));
    [lia | reflexivity].
Qed.

Lemma scaled_le (z x y : Q) : 0 <= z -> x <= y -> z * x <= z * y.
Proof.
  intros Hz H. rewrite !(Qmult_comm z). now apply Qmult_le_compat_r.
Qed.

Lemma clamped_mono (x y : Q) :
  x <= y -> round1 (min x 10.0) <= round1 (min y 10.0).
Proof. intros H. apply round1_mono. now apply min_mono. Qed.

(** X7.  For a product whose transparency score is not negative, scored
    with weights that are not negative, the user's preferences can only
    raise the overall score: a profile that rates at 4 or above every factor
    another profile rates so gets at least the other's score.  The score
    lies between the clamped weighted sum, which is what a profile with no
    rating of 4 or above gets, and the clamped weighted sum raised by
    30%. *)
Theorem preferences_only_raise (pd : dict) (uv uv' : list (string * Z))
    (w : option (list (string * Q))) (r r' : ScoreResult) :
  transparency_nonneg pd ->
  weights_nonneg w ->
  (forall key, important key uv -> important key uv') ->
  score_ethical_factors pd uv w = Ok r ->
  score_ethical_factors pd uv' w = Ok r' ->
  overall_score r <= overall_score r' /\
  exists overall,
    weighted_sum_of pd w overall /\
    round1 (min overall 10.0) <= overall_score r /\
    overall_score r <= round1 (min (1.3 * overall) 10.0) /\
    ((forall key, ~ important key uv) ->
     overall_score r == round1 (min overall 10.0)).
Proof.
  intros Hnn Hwn Himp H H'.
  destruct (score_inv _ _ _ _ H) as (certs & c & overall & Hc & Hcomp & Hw & ->).
  destruct (score_inv _ _ _ _ H')
    as (certs' & c' & overall' & Hc' & Hcomp' & Hw' & ->).
  rewrite Hc in Hc'. injection Hc' as <-.
  rewrite Hcomp in Hcomp'. injection Hcomp' as <-.
  rewrite Hw in Hw'. injection Hw' as <-.
  destruct (components_ranges pd certs c Hnn Hcomp)
    as (He & Hl & Ht & Hs & Hce).
  assert (Ho : 0 <= overall).
  { apply (weighted_overall_nonneg c (weights_or_default w)); trivial.
    unfold scores_dict.
    repeat constructor; cbn [snd]; lra. }
  pose proof (multiplier_mono c uv uv') as Hmono.
  pose proof (multiplier_range c uv) as Hrange.
  cbn [assemble overall_score].
  split.
  { apply clamped_mono. apply scaled_le; [exact Ho |].
    apply Hmono; trivial; lra. }
  exists overall. split; [exists certs, c; auto |].
  assert (Hm : 1 <= user_weight_multiplier c uv <= 1.3)
    by (apply Hrange; lra).
  split; [| split].
  - apply clamped_mono.
    setoid_replace overall with (overall * 1) at 1 by ring.
    apply scaled_le; [exact Ho | tauto].
  - apply clamped_mono.
    setoid_replace (1.3 * overall) with (overall * 1.3) by ring.
    apply scaled_le; [exact Ho | tauto].
  - intros Hplain. rewrite (multiplier_plain c uv Hplain).
    apply Qle_antisym; apply clamped_mono;
      setoid_replace (overall * 1.0) with overall by ring; apply Qle_refl.
Qed.

Lemma preferences_only_raise_witness :
  exists r r',
    score_ethical_factors test_product_a [] None = Ok r /\
    score_ethical_factors test_product_a test_values_a None = Ok r' /\
    overall_score r <= overall_score r'.
Proof.
  eexists. eexists.
  match goal with
  | |- ?a = Ok ?r /\ ?b = Ok ?r' /\ _ =>
      assert (H : a = Ok r) by (vm_compute; reflexivity);
      assert (H' : b = Ok r') by (vm_compute; reflexivity)
  end.
  split; [exact H |]. split; [exact H' |].
  refine (proj1 (preferences_only_raise test_product_a [] test_values_a None
                   _ _ ScoringTheorems.test_product_a_nonneg
                   ScoringTheorems.default_weights_nonneg _ H H')).
  intros key Hk. unfold important, importance, get_default in Hk.
  simpl in Hk. lia.
Defined.

(** *** When the engine returns *)





End ScoringExtras.

(** ** Further properties of the quiz *)

Module QuizExtras.
Import Py Quiz QuizSpec ExtraSpec ScoringFacts QuizTheorems.

Section Responses.

Variable int_of_str : string -> option Z.

Lemma ask_cons (response : string) (rest : list string) :
  ask int_of_str (response :: rest)
  = match accepted int_of_str response with
    | Some z => Ok (z, rest)
    | None => ask int_of_str rest
    end.
Proof.
  unfold accepted. cbn [ask].
  destruct (int_of_str response) as [score |]; [| reflexivity].
  now destruct (andb _ _).
Qed.

(** One question reads on to the first acceptable response and no
    further. *)
Lemma ask_consumes (stdin rest : list string) (z : Z) :
  ask int_of_str stdin = Ok (z, rest) ->
  exists skipped response,
    stdin = (skipped ++ response :: rest)%list /\
    accepted int_of_str response = Some z /\
    accepted_scores int_of_str skipped = [].
Proof.
  induction stdin as [| response t IH]; [discriminate |].
  rewrite ask_cons.
  destruct (accepted int_of_str response) as [score |] eqn:Ea.
  - intros [= <- <-]. exists [], response. repeat split. exact Ea.
  - intros H. destruct (IH H) as (skipped & r & -> & Hr & Hs).
    exists (response :: skipped), r. repeat split; [exact Hr |].
    simpl. now rewrite Ea.
Qed.

(** Lines behind the accepted response play no part. *)
Lemma ask_more (stdin rest more : list string) (z : Z) :
  ask int_of_str stdin = Ok (z, rest) ->
  ask int_of_str (stdin ++ more) = Ok (z, (rest ++ more)%list).
Proof.
  induction stdin as [| response t IH]; [discriminate |].
  rewrite <- app_comm_cons, !ask_cons.
  destruct (accepted int_of_str response); [now intros [= <- <-] | exact IH].
Qed.

Lemma accepted_scores_app (xs ys : list string) :
  accepted_scores int_of_str (xs ++ ys)
  = (accepted_scores int_of_str xs ++ accepted_scores int_of_str ys)%list.
Proof.
  induction xs as [| x t IH]; [reflexivity |].
  simpl. destruct (accepted int_of_str x); simpl; now rewrite IH.
Qed.

Lemma ask_all_more (qs : list (string * string)) (values0 : list (string * Z))
    (stdin rest more : list string) (values : list (string * Z)) :
  ask_all int_of_str qs values0 stdin = Ok (values, rest) ->
  ask_all int_of_str qs values0 (stdin ++ more)
  = Ok (values, (rest ++ more)%list).
Proof.
  revert values0 stdin. induction qs as [| [q key] t IH]; intros values0 stdin H.
  - cbn [ask_all] in *. now injection H as <- <-.
  - cbn [ask_all] in *. invert_bind H. destruct a as [z r1].
    rewrite (ask_more _ _ more _ E). cbn [bind fst snd] in *.
    now apply IH.
Qed.

Lemma ask_all_consumes (qs : list (string * string)) (values0 : list (string * Z))
    (stdin rest : list string) (values : list (string * Z)) :
  qs <> [] ->
  ask_all int_of_str qs values0 stdin = Ok (values, rest) ->
  exists init last,
    stdin = ((init ++ [last]) ++ rest)%list /\
    accepted int_of_str last <> None /\
    List.length (accepted_scores int_of_str (init ++ [last])) = List.length qs.
Proof.
  revert values0 stdin. induction qs as [| [q key] t IH]; intros values0 stdin Hne H;
    [contradiction |].
  cbn [ask_all] in H. invert_bind H. destruct a as [z r1]. cbn [fst snd] in H.
  destruct (ask_consumes _ _ _ E) as (skipped & response & -> & Hr & Hs).
  destruct t as [| q' t'].
  - cbn [ask_all] in H. injection H as _ <-.
    exists skipped, response. split; [now rewrite <- app_assoc |].
    split; [congruence |].
    rewrite accepted_scores_app, Hs. simpl. now rewrite Hr.
  - destruct (IH _ _ ltac:(discriminate) H) as (init & last & -> & Hl & Hlen).
    exists (skipped ++ response :: init)%list, last.
    split; [now rewrite <- !app_assoc |]. split; [exact Hl |].
    rewrite <- app_assoc, accepted_scores_app, Hs. simpl. rewrite Hr.
    simpl. now rewrite Hlen.
Qed.

(** With fewer than five acceptable responses the loop runs out of input. *)
Lemma ask_all_short (stdin : list string) :
  (List.length (accepted_scores int_of_str stdin) < 5)%nat ->
  ask_all int_of_str questions [] stdin = Raise EOFError.
Proof.
  intros Hlen. unfold questions. cbn [ask_all].
  pose proof (ask_first_accepted int_of_str stdin) as H1.
  destruct (accepted_scores int_of_str stdin) as [| e l1]; [now rewrite H1 |].
  destruct H1 as (r1 & -> & <-). cbn [bind fst snd].
  pose proof (ask_first_accepted int_of_str r1) as H2.
  destruct (accepted_scores int_of_str r1) as [| l l2]; [now rewrite H2 |].
  destruct H2 as (r2 & -> & <-). cbn [bind fst snd].
  pose proof (ask_first_accepted int_of_str r2) as H3.
  destruct (accepted_scores int_of_str r2) as [| s l3]; [now rewrite H3 |].
  destruct H3 as (r3 & -> & <-). cbn [bind fst snd].
  pose proof (ask_first_accepted int_of_str r3) as H4.
  destruct (accepted_scores int_of_str r3) as [| a l4]; [now rewrite H4 |].
  destruct H4 as (r4 & -> & <-). cbn [bind fst snd].
  pose proof (ask_first_accepted int_of_str r4) as H5.
  destruct (accepted_scores int_of_str r4) as [| t l5]; [now rewrite H5 |].
  simpl in Hlen. lia.
Qed.

Lemma operon_returns (stdin : list string) :
  (5 <= List.length (accepted_scores int_of_str stdin))%nat ->
  exists a rest,
    Quiz.assess_ethical_values int_of_str true stdin = Ok (a, rest).
Proof.
  intros Hlen.
  destruct (ask_all_enough int_of_str stdin Hlen) as (values & rest & Hask).
  unfold Quiz.assess_ethical_values. rewrite Hask. cbn [bind fst snd].
  destruct (ask_all_questions int_of_str stdin rest values Hask)
    as (e & l & s & a & t & _ & _ & _ & ->).
  cbn. eauto.
Qed.

(** X9.  The interactive quiz never returns a partial profile: when the
    input holds fewer than five acceptable responses it ends in [EOFError];
    it returns exactly when there are five. *)
Theorem quiz_needs_five_answers (stdin : list string) :
  ((List.length (accepted_scores int_of_str stdin) < 5)%nat ->
   Quiz.assess_ethical_values int_of_str true stdin = Raise EOFError) /\
  (is_ok (Quiz.assess_ethical_values int_of_str true stdin) = true <->
   (5 <= List.length (accepted_scores int_of_str stdin))%nat).
Proof.
  assert (Hshort : (List.length (accepted_scores int_of_str stdin) < 5)%nat ->
                   Quiz.assess_ethical_values int_of_str true stdin
                   = Raise EOFError).
  { intros Hlen. unfold Quiz.assess_ethical_values.
    now rewrite (ask_all_short stdin Hlen). }
  split; [exact Hshort |]. split.
  - intros Hok.
    destruct (le_lt_dec 5 (List.length (accepted_scores int_of_str stdin)))
      as [Hge | Hlt]; [exact Hge |].
    rewrite (Hshort Hlt) in Hok. discriminate Hok.
  - intros Hge.
    destruct (operon_returns stdin Hge) as (a & rest & ->).
    reflexivity.
Qed.

Lemma operon_inv (stdin rest : list string) (a : Assessment) :
  Quiz.assess_ethical_values int_of_str true stdin = Ok (a, rest) ->
  exists vs ps,
    ask_all int_of_str questions [] stdin = Ok (vs, rest) /\
    priorities questions vs = Ok ps /\
    a = {| values := vs;
           summary := match ps with
                      | [] => "Balanced approach"
                      | _ => "Top priorities: " ++ join ", " ps
                      end;
           total_score := fold_left Z.add (map snd vs) 0%Z;
           assessment_type := "interactive" |}.
Proof.
  unfold Quiz.assess_ethical_values. intros H.
  invert_bind H. destruct a0 as [vs rest']. cbn [fst snd] in H.
  invert_bind H. injection H as <- <-. eauto.
Qed.

(** X10.  The interactive quiz reads its input up to the fifth acceptable
    response and not a line further: the lines it hands back are the ones
    behind that response, and whatever follows there changes neither the
    profile nor the summary. *)
Theorem quiz_reads_to_fifth_answer (stdin rest : list string) (a : Assessment) :
  Quiz.assess_ethical_values int_of_str true stdin = Ok (a, rest) ->
  (exists init last,
     stdin = ((init ++ [last]) ++ rest)%list /\
     accepted int_of_str last <> None /\
     accepted_scores int_of_str (init ++ [last]) = map snd (values a)) /\
  (forall more,
     Quiz.assess_ethical_values int_of_str true (stdin ++ more)
     = Ok (a, (rest ++ more)%list)).
Proof.
  intros H. pose proof (operon_values int_of_str true stdin rest a H) as Hask.
  cbn iota in Hask. split.
  - destruct (ask_all_consumes questions [] stdin rest (values a)
                ltac:(discriminate) Hask) as (init & last & E & Hl & Hlen).
    exists init, last. split; [exact E | split; [exact Hl |]].
    destruct (ask_all_questions int_of_str stdin rest (values a) Hask)
      as (e & l & s & x & t & _ & _ & Eacc & Ev).
    rewrite Ev. cbn [map snd].
    rewrite E, accepted_scores_app in Eacc.
    now apply app_inv_tail in Eacc.
  - intros more.
    destruct (operon_inv _ _ _ H) as (vs & ps & Hask' & Hps & ->).
    unfold Quiz.assess_ethical_values.
    rewrite (ask_all_more questions [] stdin rest more vs Hask').
    cbn [bind fst snd]. rewrite Hps. reflexivity.
Qed.

(** *** The summary and the total *)

Lemma priorities_keyed (e l s a t : Z) :
  priorities questions (keyed e l s a t)
  = Ok (map fst (filter (fun p => (4 <=? snd p)%Z)
                   (combine operon_labels [e; l; s; a; t]))).
Proof.
  cbv -[Z.leb].
  destruct (4 <=? e)%Z, (4 <=? l)%Z, (4 <=? s)%Z, (4 <=? a)%Z, (4 <=? t)%Z;
    reflexivity.
Qed.

Lemma priorities_line_balanced (prefix balanced : string) (c : ascii)
    (prefix' : string) (labels : list string) (scores : list Z) :
  prefix = String c prefix' ->
  String.get 0 balanced <> Some c ->
  List.length labels = List.length scores ->
  (priorities_line prefix balanced labels scores = balanced <->
   Forall (fun z => (z < 4)%Z) scores).
Proof.
  intros -> Hc Hlen. unfold priorities_line.
  revert scores Hlen. induction labels as [| lab labels IH]; intros scores Hlen.
  - destruct scores; [| discriminate Hlen]. simpl. split; [constructor | reflexivity].
  - destruct scores as [| z scores]; [discriminate Hlen |].
    injection Hlen as Hlen. specialize (IH scores Hlen).
    cbn [combine filter snd].
    destruct (Z.leb_spec 4 z) as [Hz | Hz].
    + cbn [map fst]. split.
      * intros E. exfalso. apply Hc. rewrite <- E. reflexivity.
      * intros HF. inversion HF; subst. lia.
    + rewrite IH. split.
      * intros HF. now constructor.
      * intros HF. now inversion HF.
Qed.

Lemma operon_profile (interactive : bool) (stdin rest : list string)
    (a : Assessment) :
  Quiz.assess_ethical_values int_of_str interactive stdin = Ok (a, rest) ->
  exists e l s x t,
    Forall in_scale [e; l; s; x; t] /\
    a = {| values := keyed e l s x t;
           summary := priorities_line "Top priorities: " "Balanced approach"
                        operon_labels [e; l; s; x; t];
           total_score := (e + l + s + x + t)%Z;
           assessment_type := if interactive then "interactive" else "default" |} /\
    (interactive = false ->
     rest = stdin /\ [e; l; s; x; t] = [3; 3; 3; 3; 3]%Z).
Proof.
  intros H. destruct interactive.
  - destruct (operon_inv _ _ _ H) as (vs & ps & Hask & Hps & ->).
    destruct (ask_all_questions int_of_str stdin rest vs Hask)
      as (e & l & s & x & t & _ & Hall & _ & ->).
    exists e, l, s, x, t. split; [exact Hall |]. split; [| discriminate].
    change [("environmental_importance", e); ("labor_practices_importance", l);
            ("local_sourcing_preference", s); ("animal_welfare_importance", x);
            ("transparency_importance", t)] with (keyed e l s x t) in *.
    assert (Eps : ps = map fst (filter (fun p => (4 <=? snd p)%Z)
                                  (combine operon_labels [e; l; s; x; t])))
      by (rewrite priorities_keyed in Hps; congruence).
    assert (Etot : fold_left Z.add (map snd (keyed e l s x t)) 0%Z
                   = (e + l + s + x + t)%Z)
      by (unfold keyed; cbn [map snd fold_left]; lia).
    rewrite Etot, Eps. unfold priorities_line.
    now destruct (map fst _).
  - unfold Quiz.assess_ethical_values in H. cbn in H. injection H as <- <-.
    exists 3%Z, 3%Z, 3%Z, 3%Z, 3%Z. split.
    + repeat (apply Forall_cons; [unfold in_scale; lia |]). apply Forall_nil.
    + split; [reflexivity | now intros _].
Qed.

(** X11.  What the operon returns beside the profile: the total is the sum of
    the five scores, between 5 and 25; the summary names, in the order of
    the questions, the factors scored 4 or above, and reads "Balanced
    approach" exactly when no score reaches 4.  Run without prompts the
    operon reads no input and answers 3 to every question, for a total of
    15 and a balanced summary. *)
Theorem operon_summary_and_total (interactive : bool) (stdin rest : list string)
    (a : Assessment) :
  Quiz.assess_ethical_values int_of_str interactive stdin = Ok (a, rest) ->
  total_score a = fold_left Z.add (map snd (values a)) 0%Z /\
  (5 <= total_score a <= 25)%Z /\
  summary a
  = priorities_line "Top priorities: " "Balanced approach" operon_labels
      (map snd (values a)) /\
  (summary a = "Balanced approach" <->
   Forall (fun z => (z < 4)%Z) (map snd (values a))) /\
  (interactive = false ->
   rest = stdin /\ map snd (values a) = [3; 3; 3; 3; 3]%Z /\
   total_score a = 15%Z /\ summary a = "Balanced approach").
Proof.
  intros H.
  destruct (operon_profile _ _ _ _ H) as (e & l & s & x & t & Hall & -> & Hdef).
  cbn [values summary total_score keyed map snd fold_left].
  inversion Hall as [| ? ? He H1]; subst.
  inversion H1 as [| ? ? Hl H2]; subst.
  inversion H2 as [| ? ? Hs H3]; subst.
  inversion H3 as [| ? ? Hx H4]; subst.
  inversion H4 as [| ? ? Ht _]; subst.
  unfold in_scale in *.
  split; [lia |]. split; [lia |]. split; [reflexivity |]. split.
  - apply (priorities_line_balanced _ _ "T"%char "op priorities: ");
      [reflexivity | discriminate | reflexivity].
  - intros Hi. destruct (Hdef Hi) as [-> E]. injection E as -> -> -> -> ->.
    repeat split.
Qed.

End Responses.

(** The operon on [example_answers]. *)
Lemma operon_summary_and_total_witness :
  exists a,
    Quiz.assess_ethical_values decimal true example_answers = Ok (a, []) /\
    total_score a = 18%Z /\
    summary a
    = "Top priorities: environmental sustainability, fair labor practices, supply chain transparency".
Proof.
  eexists.
  match goal with
  | |- Quiz.assess_ethical_values ?p ?i ?s = Ok (?a, ?rest) /\ _ =>
      assert (H : Quiz.assess_ethical_values p i s = Ok (a, rest))
        by (vm_compute; reflexivity);
      destruct (operon_summary_and_total p i s rest a H)
        as (Htot & _ & Hsum & _)
  end.
  split; [exact H |]. split.
  - rewrite Htot. reflexivity.
  - rewrite Hsum. reflexivity.
Defined.

Lemma quiz_needs_five_answers_witness :
  Quiz.assess_ethical_values decimal true ["4"; "9"; "5"; "x"; "3"]
  = Raise EOFError.
Proof.
  apply (quiz_needs_five_answers decimal ["4"; "9"; "5"; "x"; "3"]).
  vm_compute. lia.
Defined.

Lemma quiz_reads_to_fifth_answer_witness :
  exists a,
    Quiz.assess_ethical_values decimal true (example_answers ++ ["1"; "1"])
    = Ok (a, ["1"; "1"]) /\
    map snd (values a) = [4; 5; 3; 2; 4]%Z.
Proof.
  eexists.
  match goal with
  | |- Quiz.assess_ethical_values ?p ?i (?s ++ ?more) = Ok (?a, _) /\ _ =>
      assert (H : Quiz.assess_ethical_values p i s = Ok (a, []))
        by (vm_compute; reflexivity);
      pose proof (proj2 (quiz_reads_to_fifth_answer p s [] a H) more) as Hmore
  end.
  split; [exact Hmore | reflexivity].
Defined.

End QuizExtras.

(** ** Further properties of the agent *)

Module AgentExtras.
Import Py Agent AgentSpec QuizSpec ExtraSpec ScoringFacts QuizTheorems
       AgentTheorems QuizExtras.

Lemma generate_values_summary_line (e l s a t : Z) :
  generate_values_summary
    {| environmental_importance := e;
       labor_practices_importance := l;
       local_sourcing_preference := s;
       animal_welfare_importance := a;
       transparency_importance := t |}
  = priorities_line "Your top priorities: "
      "Balanced approach across all ethical factors" agent_labels
      [e; l; s; a; t].
Proof.
  unfold generate_values_summary, priorities_line, agent_labels.
  cbn [environmental_importance labor_practices_importance
       local_sourcing_preference animal_welfare_importance
       transparency_importance combine filter snd].
  destruct (4 <=? e)%Z, (4 <=? l)%Z, (4 <=? s)%Z, (4 <=? a)%Z, (4 <=? t)%Z;
    reflexivity.
Qed.

Section Collaborators.

Variable EncryptedPayload : Type.
Variable validate_token :
  string -> ConsentScope -> bool * string * option HushhConsentToken.
Variable encrypt_data : string -> string -> EncryptedPayload.
Variable VAULT_ENCRYPTION_KEY : string.
Variable json_dumps : PyVal -> string.
Variable int_of_str : string -> option Z.

(** X12.  What [assess_ethical_values] hands back: the status, a message,
    the profile sealed, and a summary; the captured scores themselves are
    returned in no other form.  The summary names, in the order of the
    questions, the factors scored 4 or above, and reads "Balanced approach
    across all ethical factors" exactly when no score reaches 4. *)
Theorem agent_profile_and_summary (user token_str : string)
    (stdin rest : list string) (resp : Response EncryptedPayload) :
  assess_ethical_values EncryptedPayload validate_token encrypt_data
    VAULT_ENCRYPTION_KEY json_dumps int_of_str user token_str stdin
  = Ok (resp, rest) ->
  exists e l s a t,
    firstn 5 (accepted_scores int_of_str stdin) = [e; l; s; a; t] /\
    keys resp = ["status"; "message"; "encrypted_data"; "summary"] /\
    get "encrypted_data" resp
    = Some (Sealed (encrypt_data (json_dumps (values_dict (keyed e l s a t)))
                      VAULT_ENCRYPTION_KEY)) /\
    get "summary" resp
    = Some (Val (PyStr (priorities_line "Your top priorities: "
                          "Balanced approach across all ethical factors"
                          agent_labels [e; l; s; a; t]))) /\
    (get "summary" resp
     = Some (Val (PyStr "Balanced approach across all ethical factors")) <->
     Forall (fun z => (z < 4)%Z) [e; l; s; a; t]).
Proof.
  intros H.
  destruct (agent_values _ _ _ _ _ _ _ _ _ _ _ H) as (vs & ev & Hask & Hev & ->).
  destruct (ask_all_questions int_of_str stdin rest vs Hask)
    as (e & l & s & a & t & Hfirst & _ & _ & ->).
  exists e, l, s, a, t.
  cbn in Hev. injection Hev as <-.
  rewrite generate_values_summary_line.
  split; [exact Hfirst |]. split; [reflexivity |]. split; [reflexivity |].
  split; [reflexivity |].
  cbn [get String.eqb Ascii.eqb Bool.eqb].
  rewrite <- (priorities_line_balanced "Your top priorities: "
                "Balanced approach across all ethical factors" "Y"%char
                "our top priorities: " agent_labels [e; l; s; a; t]
                eq_refl ltac:(discriminate) eq_refl).
  split; [intros E; congruence | intros E; now rewrite E].
Qed.

(** *** Who gets a result *)

Lemma run_attribute_error (op : Operation) (user token_str reason : string) :
  checks_identity op = true ->
  validate_token token_str (scope_of op) = (true, reason, None) ->
  run EncryptedPayload validate_token encrypt_data VAULT_ENCRYPTION_KEY
      json_dumps int_of_str op user token_str
  = Raise (AttributeError "'NoneType' object has no attribute 'user_id'").
Proof.
  intros Hop Hv.
  destruct op; try discriminate Hop; cbn [run scope_of] in *;
    [ unfold assess_ethical_values | unfold analyze_purchase_history
    | unfold search_ethical_products | unfold trace_supply_chain ];
    unfold check_consent; cbn [required_scope get required_scopes String.eqb
                               Ascii.eqb Bool.eqb bind];
    rewrite Hv; reflexivity.
Qed.

Lemma check_ok (user token_str key reason : string) (s : ConsentScope)
    (t : HushhConsentToken) :
  required_scope key = Ok s ->
  validate_token token_str s = (true, reason, Some t) ->
  user_id t = user ->
  check_consent validate_token user token_str key = Ok tt.
Proof.
  intros Hk Hv Hu. unfold check_consent. rewrite Hk. cbn [bind].
  rewrite Hv. cbn [negb]. rewrite Hu, String.eqb_refl. reflexivity.
Qed.

Lemma not_succeeded_raise (e : PyExn) :
  ~ succeeded EncryptedPayload (Raise e).
Proof. intros (fields & Hf & _). discriminate Hf. Qed.

(** X13.  The outcome of a call, by what the validation collaborator
    answers.  The call returns a result exactly when the token is valid,
    decodes to the user the call names (where the entry point compares
    the subject) and, for the quiz, the input holds five acceptable
    responses; every result returned carries the status "success".  A
    token reported valid without a decoded token stops the four comparing
    entry points with AttributeError, not PermissionError; a quiz short of
    responses raises EOFError only after the token was accepted. *)
Theorem outcome_by_validation (op : Operation) (user token_str reason : string)
    (valid : bool) (tok : option HushhConsentToken) :
  validate_token token_str (scope_of op) = (valid, reason, tok) ->
  (succeeded EncryptedPayload
     (run EncryptedPayload validate_token encrypt_data VAULT_ENCRYPTION_KEY
          json_dumps int_of_str op user token_str) <->
   valid = true /\
   (checks_identity op = true -> exists t, tok = Some t /\ user_id t = user) /\
   (forall stdin, op = AssessValues stdin ->
      (5 <= List.length (accepted_scores int_of_str stdin))%nat)) /\
  (forall fields,
     run EncryptedPayload validate_token encrypt_data VAULT_ENCRYPTION_KEY
         json_dumps int_of_str op user token_str = Ok fields ->
     get "status" fields = Some (Val (PyStr "success"))) /\
  (valid = true -> checks_identity op = true -> tok = None ->
   run EncryptedPayload validate_token encrypt_data VAULT_ENCRYPTION_KEY
       json_dumps int_of_str op user token_str
   = Raise (AttributeError "'NoneType' object has no attribute 'user_id'")) /\
  (forall stdin t,
     op = AssessValues stdin -> valid = true -> tok = Some t ->
     user_id t = user ->
     (List.length (accepted_scores int_of_str stdin) < 5)%nat ->
     run EncryptedPayload validate_token encrypt_data VAULT_ENCRYPTION_KEY
         json_dumps int_of_str op user token_str
     = Raise EOFError).
Proof.
  intros Hv.
  destruct valid.
  2: { rewrite (run_denied _ _ _ _ _ _ op user token_str reason tok Hv).
       split; [| split; [| split]]; try discriminate.
       split; [intros H; now apply not_succeeded_raise in H | intros [H _]; discriminate H]. }
  destruct (checks_identity op) eqn:Hop.
  2: { destruct op; try discriminate Hop. cbn [run scope_of] in *.
       rewrite (report_any_subject _ _ user token_str reason tok Hv).
       split; [| split; [| split]]; try discriminate.
       - split.
         + intros _. split; [reflexivity |]. split; [discriminate | discriminate].
         + intros _. eexists. split; reflexivity.
       - now intros fields [= <-]. }
  destruct tok as [t |].
  2: { rewrite (run_attribute_error op user token_str reason Hop Hv).
       split; [| split; [| split]]; try discriminate; try reflexivity.
       split; [intros H; now apply not_succeeded_raise in H |].
       intros (_ & H & _). destruct (H eq_refl) as (t & Ht & _). discriminate Ht. }
  destruct (String.eqb_spec (user_id t) user) as [Hu | Hu].
  2: { rewrite (run_mismatch _ _ _ _ _ _ op user token_str reason t Hop Hv Hu).
       split; [| split; [| split]]; try discriminate.
       - split; [intros H; now apply not_succeeded_raise in H |].
         intros (_ & H & _). destruct (H eq_refl) as (t' & [= <-] & Ht).
         contradiction.
       - intros stdin t' _ _ [= <-] Hu'. contradiction. }
  destruct op; try discriminate Hop; cbn [run scope_of] in *.
  - unfold assess_ethical_values.
    rewrite (check_ok user token_str "values_access" reason _ t eq_refl Hv Hu).
    cbn [bind].
    destruct (le_lt_dec 5 (List.length (accepted_scores int_of_str stdin)))
      as [Hlen | Hlen].
    + destruct (ask_all_enough int_of_str stdin Hlen) as (values & rest & Hask).
      destruct (ask_all_questions int_of_str stdin rest values Hask)
        as (e & l & s & a & x & _ & _ & _ & ->).
      rewrite Hask. cbn [bind fst snd ethical_values_of].
      split; [| split; [| split]]; try discriminate.
      * split.
        -- intros _. split; [reflexivity |]. split; [eauto |].
           now intros stdin' [= <-].
        -- intros _. eexists. split; reflexivity.
      * now intros fields [= <-].
      * intros stdin' t' [= <-] _ _ _ Hshort. lia.
    + rewrite (ask_all_short int_of_str stdin Hlen). cbn [bind].
      split; [| split; [| split]]; try discriminate; try reflexivity.
      split; [intros H; now apply not_succeeded_raise in H |].
      intros (_ & _ & H). specialize (H stdin eq_refl). lia.
  - unfold analyze_purchase_history.
    rewrite (check_ok user token_str "email_access" reason _ t eq_refl Hv Hu).
    cbn [bind].
    split; [| split; [| split]]; try discriminate.
    + split.
      * intros _. split; [reflexivity |]. split; [eauto | discriminate].
      * intros _. eexists. split; reflexivity.
    + now intros fields [= <-].
  - unfold search_ethical_products.
    rewrite (check_ok user token_str "shopping_access" reason _ t eq_refl Hv Hu).
    cbn [bind].
    split; [| split; [| split]]; try discriminate.
    + split.
      * intros _. split; [reflexivity |]. split; [eauto | discriminate].
      * intros _. eexists. split; reflexivity.
    + now intros fields [= <-].
  - unfold trace_supply_chain.
    rewrite (check_ok user token_str "supply_chain" reason _ t eq_refl Hv Hu).
    cbn [bind].
    split; [| split; [| split]]; try discriminate.
    + split.
      * intros _. split; [reflexivity |]. split; [eauto | discriminate].
      * intros _. eexists. split; reflexivity.
    + now intros fields [= <-].
Qed.

(** X14.  What a result discloses.  A result holds a sealed payload
    exactly at the three entry points that seal ([assess_ethical_values],
    [analyze_purchase_history], [trace_supply_chain]); product search and
    the report return plain data only.  Where an analysis is returned in
    the clear, the sealed payload is the encryption, under the vault key,
    of the JSON text of that same analysis; and the only sealed field of
    any result is "encrypted_data". *)
Theorem sealed_payload_is_clear_data (op : Operation) (user token_str : string)
    (fields : Response EncryptedPayload) :
  run EncryptedPayload validate_token encrypt_data VAULT_ENCRYPTION_KEY
      json_dumps int_of_str op user token_str = Ok fields ->
  (In "encrypted_data" (keys fields) <-> seals op = true) /\
  (forall v,
     get "analysis" fields = Some (Val v) \/
     get "supply_chain_analysis" fields = Some (Val v) ->
     get "encrypted_data" fields
     = Some (Sealed (encrypt_data (json_dumps v) VAULT_ENCRYPTION_KEY))) /\
  (forall k p, In (k, Sealed p) fields -> k = "encrypted_data").
Proof.
  intros H.
  assert (Hshape :
    match op with
    | AssessValues _ =>
        exists p s,
          fields = [ ("status", Val (PyStr "success"));
                     ("message", Val (PyStr "Ethical values assessment completed"));
                     ("encrypted_data", Sealed p);
                     ("summary", Val (PyStr s)) ]
    | AnalyzeHistory period =>
        fields = [ ("status", Val (PyStr "success"));
                   ("analysis", Val mock_analysis);
                   ("encrypted_data",
                    Sealed (encrypt_data (json_dumps mock_analysis)
                              VAULT_ENCRYPTION_KEY));
                   ("period", Val (PyStr period)) ]
    | SearchProducts query budget =>
        fields = [ ("status", Val (PyStr "success"));
                   ("results", Val (mock_results query budget));
                   ("timestamp", Val (PyStr "2024-01-15T10:30:00Z")) ]
    | TraceSupplyChain url =>
        fields = [ ("status", Val (PyStr "success"));
                   ("supply_chain_analysis", Val (mock_trace url));
                   ("encrypted_data",
                    Sealed (encrypt_data (json_dumps (mock_trace url))
                              VAULT_ENCRYPTION_KEY)) ]
    | GenerateReport =>
        fields = [ ("status", Val (PyStr "success"));
                   ("report", Val (mock_report user)) ]
    end).
  { destruct op; cbn [run] in H.
    - invert_bind H. destruct a as [resp rest]. injection H as <-.
      destruct (agent_values _ _ _ _ _ _ _ _ _ _ _ E) as (vs & ev & _ & _ & ->).
      cbn [fst]. eauto.
    - unfold analyze_purchase_history in H. invert_bind H. now injection H as <-.
    - unfold search_ethical_products in H. invert_bind H. now injection H as <-.
    - unfold trace_supply_chain in H. invert_bind H. now injection H as <-.
    - unfold generate_report in H. cbn in H.
      destruct (validate_token token_str VAULT_READ_EMAIL) as [[[] ?] ?];
        cbn in H; [now injection H as <- | discriminate H]. }
  destruct op; [destruct Hshape as (p & s & ->) | subst fields ..];
    (split; [| split]).
  all: try (intros v [Hg | Hg]; cbn in Hg; try discriminate Hg;
            injection Hg as <-; reflexivity).
  all: try (intros k p' Hin; cbn in Hin;
            repeat (destruct Hin as [Hin | Hin];
                    [try discriminate Hin; injection Hin as <- _; reflexivity |]);
            contradiction).
  all: cbn; split; try discriminate; try reflexivity; try tauto.
  all: intros Hin; repeat (destruct Hin as [Hin | Hin]; [discriminate Hin |]);
       contradiction.
Qed.

(** X15.  The quiz of the agent and the quiz of the operon are the same
    quiz.  Behind an accepted token of the user, the agent fails on an
    input exactly as the interactive operon does, and where the operon
    returns a profile the agent leaves the same input unread, seals the
    JSON text of that very profile, and names in its summary the factors
    the scores of that profile put at 4 or above. *)
Theorem agent_quiz_is_operon_quiz (user token_str reason : string)
    (t : HushhConsentToken) (stdin : list string) :
  validate_token token_str CUSTOM_ETHICAL_VALUES = (true, reason, Some t) ->
  user_id t = user ->
  match Quiz.assess_ethical_values int_of_str true stdin with
  | Ok (a, rest) =>
      assess_ethical_values EncryptedPayload validate_token encrypt_data
        VAULT_ENCRYPTION_KEY json_dumps int_of_str user token_str stdin
      = Ok ([ ("status", Val (PyStr "success"));
              ("message", Val (PyStr "Ethical values assessment completed"));
              ("encrypted_data",
               Sealed (encrypt_data (json_dumps (values_dict (Quiz.values a)))
                         VAULT_ENCRYPTION_KEY));
              ("summary",
               Val (PyStr (priorities_line "Your top priorities: "
                             "Balanced approach across all ethical factors"
                             agent_labels (map snd (Quiz.values a))))) ],
            rest)
  | Raise e =>
      assess_ethical_values EncryptedPayload validate_token encrypt_data
        VAULT_ENCRYPTION_KEY json_dumps int_of_str user token_str stdin
      = Raise e
  end.
Proof.
  intros Hv Hu. unfold assess_ethical_values.
  rewrite (check_ok user token_str "values_access" reason _ t eq_refl Hv Hu).
  cbn [bind]. unfold Quiz.assess_ethical_values.
  destruct (Quiz.ask_all int_of_str Quiz.questions [] stdin)
    as [[values rest] | e] eqn:Hask; [| reflexivity].
  destruct (ask_all_questions int_of_str stdin rest values Hask)
    as (e & l & s & a & x & _ & _ & _ & ->).
  cbn [bind fst snd]. change
    [("environmental_importance", e); ("labor_practices_importance", l);
     ("local_sourcing_preference", s); ("animal_welfare_importance", a);
     ("transparency_importance", x)] with (keyed e l s a x).
  rewrite priorities_keyed. cbn [bind Quiz.values].
  cbn [keyed map snd].
  change (ethical_values_of (keyed e l s a x))
    with (Ok {| environmental_importance := e;
                labor_practices_importance := l;
                local_sourcing_preference := s;
                animal_welfare_importance := a;
                transparency_importance := x |}).
  cbn [bind]. now rewrite generate_values_summary_line.
Qed.

End Collaborators.

(** A token accepted without being decoded: the analysis stops with
    [AttributeError], which is no [PermissionError]. *)
Lemma outcome_by_validation_witness :
  run string accept_blindly seal_plain "key" dumps_repr decimal
      (AnalyzeHistory "last_6_months") "alice" "token"
  = Raise (AttributeError "'NoneType' object has no attribute 'user_id'").
Proof.
  apply (outcome_by_validation string accept_blindly seal_plain "key"
           dumps_repr decimal (AnalyzeHistory "last_6_months") "alice" "token"
           "" true None eq_refl); reflexivity.
Defined.

Lemma agent_profile_and_summary_witness :
  exists resp,
    assess_ethical_values string (accept_as "alice") seal_plain "key"
      dumps_repr decimal "alice" "token" example_answers = Ok (resp, []) /\
    get "summary" resp
    = Some (Val (PyStr "Your top priorities: environmental sustainability, fair labor practices, supply chain transparency")) /\
    get "encrypted_data" resp
    = Some (Sealed "{'environmental_importance': 4, 'labor_practices_importance': 5, 'local_sourcing_preference': 3, 'animal_welfare_importance': 2, 'transparency_importance': 4}").
Proof.
  eexists.
  match goal with
  | |- ?call = Ok (?r, ?rest) /\ _ =>
      assert (Hrun : call = Ok (r, rest)) by (vm_compute; reflexivity)
  end.
  split; [exact Hrun |].
  destruct (agent_profile_and_summary string (accept_as "alice") seal_plain
              "key" dumps_repr decimal "alice" "token" example_answers [] _ Hrun)
    as (e & l & s & a & t & Hfirst & _ & Hsealed & Hsummary & _).
  vm_compute in Hfirst. injection Hfirst as <- <- <- <- <-.
  split; [exact Hsummary | exact Hsealed].
Defined.

Lemma sealed_payload_is_clear_data_witness :
  get "encrypted_data"
    [ ("status", Val (PyStr "success"));
      ("supply_chain_analysis", Val (mock_trace "shop.example/p1"));
      ("encrypted_data", Sealed (dumps_repr (mock_trace "shop.example/p1"))) ]
  = Some (Sealed (seal_plain (dumps_repr (mock_trace "shop.example/p1")) "key")).
Proof.
  refine (proj1 (proj2 (sealed_payload_is_clear_data string (accept_as "alice")
            seal_plain "key" dumps_repr decimal
            (TraceSupplyChain "shop.example/p1") "alice" "token" _ eq_refl))
            (mock_trace "shop.example/p1") (or_intror eq_refl)).
Defined.

Lemma agent_quiz_is_operon_quiz_witness :
  assess_ethical_values string (accept_as "alice") seal_plain "key"
    dumps_repr decimal "alice" "token" ["4"; "9"; "5"; "x"; "3"]
  = Raise EOFError.
Proof.
  exact (agent_quiz_is_operon_quiz string (accept_as "alice") seal_plain "key"
           dumps_repr decimal "alice" "token" ""
           {| token := "token"; user_id := "alice";
              scope := CUSTOM_ETHICAL_VALUES |}
           ["4"; "9"; "5"; "x"; "3"] eq_refl eq_refl).
Defined.

End AgentExtras.
